(** * Spyglass design-rule engine (spyglass/parser/engine.py)

    A shallow embedding of [ProcessDataSource]: the design-rule dispatcher,
    the [ip_alloc_offset] rule and the genesis-node lookup, together with the
    properties of the specification that concern them. *)

From Stdlib Require Import ZArith String List Ascii DecimalString Lia.
From stdpp Require Import gmap strings list.

Set Warnings "-register-all".

Open Scope string_scope.
Open Scope Z_scope.

(** ** Python values and dictionaries *)

(** The values that YAML documents are made of.  A Python [dict] keeps its
    keys in insertion order, so it is an association list: reading takes the
    first binding of a key, writing replaces the binding of a key that is
    present and appends one for a key that is not. *)
Inductive Value : Type :=
| VInt (z : Z)
| VStr (s : string)
| VList (l : list Value)
| VDict (d : list (string * Value)).

Definition dict (V : Type) : Type := list (string * V).

Fixpoint dict_get {V : Type} (k : string) (d : dict V) : option V :=
  match d with
  | [] => None
  | (k', v) :: d' => if String.eqb k k' then Some v else dict_get k d'
  end.

Fixpoint dict_set {V : Type} (k : string) (v : V) (d : dict V) : dict V :=
  match d with
  | [] => [(k, v)]
  | (k', v') :: d' =>
      if String.eqb k k' then (k', v) :: d' else (k', v') :: dict_set k v d'
  end.

Definition dict_keys {V : Type} (d : dict V) : list string := map fst d.

(** ** Exceptions *)

Inductive Exn : Type :=
| KeyError | IndexError | TypeError | AddrFormatError | AttributeError.

Inductive Result (A : Type) : Type :=
| Ok (a : A)
| Raise (e : Exn).
Arguments Ok {A} a.
Arguments Raise {A} e.

#[global] Instance result_ret : MRet Result := fun A a => Ok a.

#[global] Instance result_bind : MBind Result := fun A B k r =>
  match r with
  | Ok a => k a
  | Raise e => Raise e
  end.

(** [d[k]] on a dictionary: [KeyError] when the key is missing. *)
Definition subscript {V : Type} (d : dict V) (k : string) : Result V :=
  match dict_get k d with
  | Some v => Ok v
  | None => Raise KeyError
  end.

(** [v[k]] for a string key on an arbitrary value: only a dictionary can be
    subscripted by a string. *)
Definition subscript_key (v : Value) (k : string) : Result Value :=
  match v with
  | VDict d => subscript d k
  | _ => Raise TypeError
  end.

(** [l[i]] on a Python list: a negative index counts from the end, an index
    outside [-len, len) raises [IndexError]. *)
Definition py_index {A : Type} (l : list A) (i : Z) : Result A :=
  let n := Z.of_nat (length l) in
  let j := if i <? 0 then n + i else i in
  if (0 <=? j) && (j <? n) then
    match nth_error l (Z.to_nat j) with
    | Some a => Ok a
    | None => Raise IndexError
    end
  else Raise IndexError.

(** [l[v]] where the index is an arbitrary value: it has to be an integer. *)
Definition list_index {A : Type} (l : list A) (v : Value) : Result A :=
  match v with
  | VInt i => py_index l i
  | _ => Raise TypeError
  end.

(** [v[0]], as applied to the [subnet] of the ingress network. *)
Definition subscript_zero (v : Value) : Result Value :=
  match v with
  | VList l => py_index l 0
  | VStr s =>
      match s with
      | EmptyString => Raise IndexError
      | String c _ => Ok (VStr (String c EmptyString))
      end
  | VInt _ => Raise TypeError
  | VDict _ => Raise KeyError
  end.

(** ** netaddr networks *)

Inductive ipversion : Type := IPv4 | IPv6.

Definition width (v : ipversion) : Z :=
  match v with IPv4 => 32 | IPv6 => 128 end.

Definition max_int (v : ipversion) : Z := 2 ^ width v - 1.

Record IPAddress : Type := mkIPAddress
  { addr_version : ipversion; addr_value : Z }.

Record IPNetwork : Type := mkIPNetwork
  { net_version : ipversion; net_value : Z; net_prefixlen : Z }.

Definition hostmask_int (n : IPNetwork) : Z :=
  Z.shiftl 1 (width (net_version n) - net_prefixlen n) - 1.

Definition first (n : IPNetwork) : Z :=
  Z.land (net_value n) (Z.lxor (max_int (net_version n)) (hostmask_int n)).

Definition last (n : IPNetwork) : Z :=
  Z.lor (net_value n) (hostmask_int n).

(** [list(subnet)]: every address of the network, from [first] to [last].
    The list is built here whatever its size; Python builds it only when it
    fits in memory. *)
Definition ip_list (n : IPNetwork) : list IPAddress :=
  map (fun i => mkIPAddress (net_version n) (first n + Z.of_nat i))
      (seq 0 (Z.to_nat (last n - first n + 1))).

(** ** The processor's state *)

(** Host attribute mappings are objects that the program reaches through
    more than one reference ([self.data] and [self.genesis_node]); they live
    in a store and are named by their location. *)
Definition loc : Type := nat.

Record SiteData : Type := mkSiteData
  { vlan_network_data : dict (dict Value);
    bgp : dict Value;
    baremetal : dict (dict loc);
    objects : gmap loc (dict Value) }.

Record ProcessDataSource : Type := mkProcessDataSource
  { data : SiteData;
    genesis_node : option loc }.

Definition set_vlan_network_data (v : dict (dict Value)) (self : ProcessDataSource)
  : ProcessDataSource :=
  mkProcessDataSource
    (mkSiteData v (bgp (data self)) (baremetal (data self)) (objects (data self)))
    (genesis_node self).

Definition set_bgp (b : dict Value) (self : ProcessDataSource) : ProcessDataSource :=
  mkProcessDataSource
    (mkSiteData (vlan_network_data (data self)) b (baremetal (data self))
                (objects (data self)))
    (genesis_node self).

Definition set_objects (o : gmap loc (dict Value)) (self : ProcessDataSource)
  : ProcessDataSource :=
  mkProcessDataSource
    (mkSiteData (vlan_network_data (data self)) (bgp (data self))
                (baremetal (data self)) o)
    (genesis_node self).

Definition set_genesis_node (g : option loc) (self : ProcessDataSource)
  : ProcessDataSource :=
  mkProcessDataSource (data self) g.

(** The object a location names; a location that names nothing reads as an
    empty mapping. *)
Definition deref (self : ProcessDataSource) (l : loc) : dict Value :=
  default [] (objects (data self) !! l).

(** A method of the processor runs on the state and either returns or raises;
    what it wrote to the state before raising stays written. *)
Definition M (A : Type) : Type := ProcessDataSource -> Result A * ProcessDataSource.

#[global] Instance method_ret : MRet M := fun A a self => (Ok a, self).

#[global] Instance method_bind : MBind M := fun A B k m self =>
  match m self with
  | (Ok a, self') => k a self'
  | (Raise e, self') => (Raise e, self')
  end.

Definition lift {A : Type} (r : Result A) : M A := fun self => (r, self).

Definition get_self : M ProcessDataSource := fun self => (Ok self, self).

Definition modify (f : ProcessDataSource -> ProcessDataSource) : M unit :=
  fun self => (Ok tt, f self).


(** ** The engine *)

Section Engine.

(** netaddr is an external library.  Its parser of network descriptions,
    [netaddr.IPNetwork(x)] ([None] when it raises), and its printers, [str]
    of an address and of a network, are parameters.  netaddr raises
    [AddrFormatError], and [TypeError] or [ValueError] on some inputs; the
    model has the one name [AddrFormatError] for all of them, so no
    statement below relies on which of the three it is. *)
Variable IPNetwork_of : Value -> option IPNetwork.
Variable str_addr : IPAddress -> string.
Variable str_net : IPNetwork -> string.

Definition IPNetwork_new (v : Value) : Result IPNetwork :=
  match IPNetwork_of v with
  | Some n => Ok n
  | None => Raise AddrFormatError
  end.

(** [_get_network_subnets]: the loop over the network types, [acc] being
    [network_subnets]. *)
Fixpoint network_subnets_loop (net_types : list string)
    (vlan : dict (dict Value)) (acc : dict IPNetwork) : Result (dict IPNetwork) :=
  match net_types with
  | [] => Ok acc
  | net_type :: rest =>
      if negb (String.eqb net_type "ingress") then
        entry ← subscript vlan net_type;
        sv ← subscript entry "subnet";
        net ← IPNetwork_new sv;
        network_subnets_loop rest vlan (dict_set net_type net acc)
      else network_subnets_loop rest vlan acc
  end.

Definition _get_network_subnets (self : ProcessDataSource) : Result (dict IPNetwork) :=
  let vlan := vlan_network_data (data self) in
  network_subnets_loop (dict_keys vlan) vlan [].

(** [v + 1]: only an integer can be added to an integer. *)
Definition py_add_one (v : Value) : Result Value :=
  match v with
  | VInt z => Ok (VInt (z + 1))
  | _ => Raise TypeError
  end.

(** The offsets a rule payload carries, read in the order of the source. *)
Record Offsets : Type := mkOffsets
  { default_ip_offset : Value;
    oob_ip_offset : Value;
    gateway_ip_offset : Value;
    ingress_vip_offset : Value;
    static_ip_end_offset : Value;
    dhcp_ip_end_offset : Value }.

Definition collect_rules (rule_data : Value) : Result Offsets :=
  d ← subscript_key rule_data "default";
  o ← subscript_key rule_data "oob";
  g ← subscript_key rule_data "gateway";
  i ← subscript_key rule_data "ingress_vip";
  s ← subscript_key rule_data "static_ip_end";
  h ← subscript_key rule_data "dhcp_ip_end";
  Ok (mkOffsets d o g i s h).

(** One turn of the loop over [network_subnets], up to the assignment to
    [self.data]: the mapping built in [vlan_network_data[net_type]]. *)
Definition resolve_entry (off : Offsets) (net_type : string) (subnet : IPNetwork)
    (self : ProcessDataSource) : Result (dict Value) :=
  let ip_offset :=
    if String.eqb net_type "oob" then oob_ip_offset off else default_ip_offset off in
  let e : dict Value := [] in
  let ips := ip_list subnet in
  let e := dict_set "network" (VStr (str_net subnet)) e in
  gateway ← list_index ips (gateway_ip_offset off);
  let e := dict_set "gateway" (VStr (str_addr gateway)) e in
  reserved_start ← py_index ips 1;
  let e := dict_set "reserved_start" (VStr (str_addr reserved_start)) e in
  reserved_end ← list_index ips ip_offset;
  let e := dict_set "reserved_end" (VStr (str_addr reserved_end)) e in
  next ← py_add_one ip_offset;
  static_start ← list_index ips next;
  static_end ← list_index ips (static_ip_end_offset off);
  '(static_end, e) ←
    (if String.eqb net_type "pxe" then
       let mid := Z.of_nat (length ips) / 2 in
       static_end ← py_index ips (mid - 1);
       dhcp_start ← py_index ips mid;
       dhcp_end ← list_index ips (dhcp_ip_end_offset off);
       let e := dict_set "dhcp_start" (VStr (str_addr dhcp_start)) e in
       let e := dict_set "dhcp_end" (VStr (str_addr dhcp_end)) e in
       Ok (static_end, e)
     else Ok (static_end, e));
  let e := dict_set "static_start" (VStr (str_addr static_start)) e in
  let e := dict_set "static_end" (VStr (str_addr static_end)) e in
  e ←
    (if negb (String.eqb net_type "oob") then
       old ← subscript (vlan_network_data (data self)) net_type;
       vlan ← subscript old "vlan";
       Ok (dict_set "vlan" vlan e)
     else Ok e);
  let routes := if String.eqb net_type "oam" then [VStr "0.0.0.0/0"] else [] in
  Ok (dict_set "routes" (VList routes) e).

(** The loop over [network_subnets]. *)
Fixpoint vlan_networks_loop (off : Offsets) (net_types : list string)
    (network_subnets : dict IPNetwork) : M unit :=
  match net_types with
  | [] => mret tt
  | net_type :: rest =>
      subnet ← lift (subscript network_subnets net_type);
      self ← get_self;
      e ← lift (resolve_entry off net_type subnet self);
      _ ← modify (fun self =>
             set_vlan_network_data
               (dict_set net_type e (vlan_network_data (data self))) self);
      vlan_networks_loop off rest network_subnets
  end.

Definition _apply_rule_ip_alloc_offset (rule_data : Value) : M unit :=
  off ← lift (collect_rules rule_data);
  (* ingress vip and CIDR for bgp *)
  self ← get_self;
  ingress ← lift (subscript (vlan_network_data (data self)) "ingress");
  sv ← lift (subscript ingress "subnet");
  s0 ← lift (subscript_zero sv);
  subnet ← lift (IPNetwork_new s0);
  let ips := ip_list subnet in
  vip ← lift (list_index ips (ingress_vip_offset off));
  _ ← modify (fun self =>
         set_bgp (dict_set "ingress_vip" (VStr (str_addr vip)) (bgp (data self))) self);
  self ← get_self;
  ingress ← lift (subscript (vlan_network_data (data self)) "ingress");
  sv ← lift (subscript ingress "subnet");
  cidr ← lift (subscript_zero sv);
  _ ← modify (fun self =>
         set_bgp (dict_set "public_service_cidr" cidr (bgp (data self))) self);
  (* vlan network data *)
  self ← get_self;
  network_subnets ← lift (_get_network_subnets self);
  vlan_networks_loop off (dict_keys network_subnets) network_subnets.

Definition _apply_rule_host_profile_interfaces (rule_data : Value) : M unit :=
  mret tt.

Definition _apply_rule_hardware_profile (rule_data : Value) : M unit :=
  mret tt.

(** [getattr(self, function_str)]: the attributes of a processor whose name
    starts with [_apply_rule_] are its three handlers. *)
Definition getattr_rule (function_str : string) : Result (Value -> M unit) :=
  if String.eqb function_str "_apply_rule_host_profile_interfaces" then
    Ok _apply_rule_host_profile_interfaces
  else if String.eqb function_str "_apply_rule_hardware_profile" then
    Ok _apply_rule_hardware_profile
  else if String.eqb function_str "_apply_rule_ip_alloc_offset" then
    Ok _apply_rule_ip_alloc_offset
  else Raise AttributeError.

(** ["_apply_rule_" + rule_name]. *)
Definition py_concat (s : string) (v : Value) : Result string :=
  match v with
  | VStr t => Ok (s ++ t)%string
  | _ => Raise TypeError
  end.

(** [d[k]] where the key is an arbitrary value; the keys of the documents
    are strings, any other key is missing. *)
Definition subscript_value (d : Value) (k : Value) : Result Value :=
  match d, k with
  | VDict d, VStr k => subscript d k
  | VDict _, _ => Raise KeyError
  | _, _ => Raise TypeError
  end.

(** One turn of the loop of [_apply_design_rules]. *)
Definition apply_design_rule (rules_data : dict Value) (rule : string) : M unit :=
  entry ← lift (subscript rules_data rule);
  rule_name ← lift (subscript_key entry "name");
  function_str ← lift (py_concat "_apply_rule_" rule_name);
  rule_data_name ← lift (subscript_value entry rule_name);
  function ← lift (getattr_rule function_str);
  function rule_data_name.

Fixpoint apply_design_rules_loop (rules_data : dict Value) (rules : list string)
  : M unit :=
  match rules with
  | [] => mret tt
  | rule :: rest =>
      _ ← apply_design_rule rules_data rule;
      apply_design_rules_loop rules_data rest
  end.

(** [_apply_design_rules], from the point where the rule file has been read
    into [rules_data]. *)
Definition _apply_design_rules (rules_data : dict Value) : M unit :=
  apply_design_rules_loop rules_data (dict_keys rules_data).

(** [v == 'genesis']. *)
Definition value_eq_str (v : Value) (s : string) : bool :=
  match v with
  | VStr t => String.eqb t s
  | _ => false
  end.

(** [self.genesis_node[k] = v]: the write goes to the object that
    [self.genesis_node] refers to. *)
Definition genesis_node_setitem (k : string) (v : Value) : M unit :=
  fun self =>
    match genesis_node self with
    | Some g =>
        (Ok tt,
         set_objects (<[g := dict_set k v (deref self g)]> (objects (data self))) self)
    | None => (Raise TypeError, self)
    end.

(** The loop over the hosts of one rack. *)
Fixpoint rack_hosts_loop (rack_hosts : dict loc) (hosts : list string) : M unit :=
  match hosts with
  | [] => mret tt
  | host :: rest =>
      h ← lift (subscript rack_hosts host);
      self ← get_self;
      ty ← lift (subscript (deref self h) "type");
      _ ← (if value_eq_str ty "genesis" then
             _ ← modify (set_genesis_node (Some h));
             genesis_node_setitem "name" (VStr host)
           else mret tt);
      rack_hosts_loop rack_hosts rest
  end.

(** The loop over the racks. *)
Fixpoint racks_loop (racks : list string) : M unit :=
  match racks with
  | [] => mret tt
  | rack :: rest =>
      self ← get_self;
      rack_hosts ← lift (subscript (baremetal (data self)) rack);
      _ ← rack_hosts_loop rack_hosts (dict_keys rack_hosts);
      racks_loop rest
  end.

Definition _get_genesis_node_details : M unit :=
  self ← get_self;
  racks_loop (dict_keys (baremetal (data self))).

(** [generate_intermediary_yaml]: the rules, then the genesis node; the
    document is the processor's [data]. *)
Definition generate_intermediary_yaml (rules_data : dict Value) : M SiteData :=
  _ ← _apply_design_rules rules_data;
  _ ← _get_genesis_node_details;
  self ← get_self;
  mret (data self).

End Engine.

(** ** A textual netaddr for IPv4

    Dotted-quad addresses and [a.b.c.d/p] networks, enough to run the engine
    on the documents of the examples. *)

Module IPv4Text.

Definition str_Z (z : Z) : string :=
  NilZero.string_of_uint (N.to_uint (Z.to_N z)).

Definition Z_of_str (s : string) : option Z :=
  match NilZero.uint_of_string s with
  | Some u => Some (Z.of_N (N.of_uint u))
  | None => None
  end.

Fixpoint split_on (c : ascii) (s : string) : list string :=
  match s with
  | EmptyString => [EmptyString]
  | String a s' =>
      if Ascii.eqb a c then EmptyString :: split_on c s'
      else match split_on c s' with
           | [] => [String a EmptyString]
           | w :: ws => String a w :: ws
           end
  end.

Definition octets (v : Z) : list Z :=
  [v / 2 ^ 24 mod 256; v / 2 ^ 16 mod 256; v / 2 ^ 8 mod 256; v mod 256].

Definition str_value (v : Z) : string :=
  String.concat "." (map str_Z (octets v)).

Definition str_addr (a : IPAddress) : string := str_value (addr_value a).

Definition str_net (n : IPNetwork) : string :=
  (str_value (net_value n) ++ "/" ++ str_Z (net_prefixlen n))%string.

Definition value_of_octets (os : list string) : option Z :=
  match map Z_of_str os with
  | [Some a; Some b; Some c; Some d] =>
      if forallb (fun o => o <? 256) [a; b; c; d]
      then Some (((a * 256 + b) * 256 + c) * 256 + d) else None
  | _ => None
  end.

Definition IPNetwork_of (v : Value) : option IPNetwork :=
  match v with
  | VStr s =>
      match split_on "/" s with
      | [a; p] =>
          match value_of_octets (split_on "." a), Z_of_str p with
          | Some x, Some l =>
              if l <=? 32 then Some (mkIPNetwork IPv4 x l) else None
          | _, _ => None
          end
      | _ => None
      end
  | _ => None
  end.

End IPv4Text.

(** ** The rule: positions, offsets and fields *)

(** The position a Python index denotes in a list of [n] elements. *)
Definition py_position (n i : Z) : Z := if i <? 0 then n + i else i.

(** [ip_offset] of the loop: the [oob] offset for the network type [oob], the
    [default] offset for every other. *)
Definition ip_offset_of (off : Offsets) (net_type : string) : Value :=
  if String.eqb net_type "oob" then oob_ip_offset off else default_ip_offset off.

(** The fields of a resolved entry, in the order in which the rule writes
    them; [dhcp] and [vlan] are the fields that only some types receive. *)
Definition entry_fields (network gateway reserved_start reserved_end : Value)
    (dhcp : dict Value) (static_start static_end : Value) (vlan : dict Value)
    (routes : Value) : dict Value :=
  ([("network", network); ("gateway", gateway);
    ("reserved_start", reserved_start); ("reserved_end", reserved_end)]
   ++ dhcp
   ++ [("static_start", static_start); ("static_end", static_end)]
   ++ vlan
   ++ [("routes", routes)])%list.

(** The keys that the rule writes into the entry of a network type. *)
Definition resolved_keys (net_type : string) : list string :=
  (["network"; "gateway"; "reserved_start"; "reserved_end"]
   ++ (if String.eqb net_type "pxe" then ["dhcp_start"; "dhcp_end"] else [])
   ++ ["static_start"; "static_end"]
   ++ (if String.eqb net_type "oob" then [] else ["vlan"])
   ++ ["routes"])%list.

Definition routes_of (net_type : string) : list Value :=
  if String.eqb net_type "oam" then [VStr "0.0.0.0/0"] else [].

(** [offsets.name] is the integer [i]. *)
Definition offset (rule_data : Value) (name : string) (i : Z) : Prop :=
  subscript_key rule_data name = Ok (VInt i).

(** The name of the offset that [ip_offset] is read from. *)
Definition ip_offset_name (net_type : string) : string :=
  if String.eqb net_type "oob" then "oob" else "default".

(** ** The genesis node: the hosts in order *)

(** [ProcessDataSource(sitetype)] followed by
    [load_extracted_data_from_data_source(extracted_data)]: the document is
    adopted as [self.data] and [genesis_node] is still [None].  Validation,
    the files written on the way and [region_name] are left out. *)
Definition load_extracted_data_from_data_source (extracted_data : SiteData)
  : ProcessDataSource :=
  mkProcessDataSource extracted_data None.

(** The hosts of a rack, and of all racks, in the order in which the lookup
    meets them, each with the location of its attribute mapping. *)
Definition rack_host_refs (rack_hosts : dict loc) (hosts : list string)
  : list (string * loc) :=
  flat_map (fun host => match dict_get host rack_hosts with
                        | Some h => [(host, h)]
                        | None => []
                        end) hosts.

Definition host_refs (bm : dict (dict loc)) (racks : list string)
  : list (string * loc) :=
  flat_map (fun rack => match dict_get rack bm with
                        | Some rack_hosts =>
                            rack_host_refs rack_hosts (dict_keys rack_hosts)
                        | None => []
                        end) racks.

Definition all_hosts (d : SiteData) : list (string * loc) :=
  host_refs (baremetal d) (dict_keys (baremetal d)).

Definition type_of (o : gmap loc (dict Value)) (h : loc) : option Value :=
  dict_get "type" (default [] (o !! h)).

Definition is_genesis (o : gmap loc (dict Value)) (h : loc) : bool :=
  match type_of o h with
  | Some v => value_eq_str v "genesis"
  | None => false
  end.

(** The last element of a list that passes a test. *)
Fixpoint find_last {A : Type} (p : A -> bool) (l : list A) : option A :=
  match l with
  | [] => None
  | x :: l' =>
      match find_last p l' with
      | Some y => Some y
      | None => if p x then Some x else None
      end
  end.

(** The last host, in the order of the lookup, whose type is [genesis]. *)
Definition last_genesis (d : SiteData) : option (string * loc) :=
  find_last (fun r => is_genesis (objects d) (snd r)) (all_hosts d).

(** What the lookup does at one host: at a genesis host it points
    [genesis_node] to the host's mapping and writes [name] into it. *)
Definition visit (st : option loc * gmap loc (dict Value)) (r : string * loc)
  : option loc * gmap loc (dict Value) :=
  let '(g, o) := st in
  let '(host, h) := r in
  if is_genesis o h
  then (Some h, <[h := dict_set "name" (VStr host) (default [] (o !! h))]> o)
  else (g, o).

Definition visit_all (refs : list (string * loc))
    (st : option loc * gmap loc (dict Value)) : option loc * gmap loc (dict Value) :=
  fold_left visit refs st.

(** The state with [genesis_node] and the store of host mappings replaced. *)
Definition with_genesis (st : option loc * gmap loc (dict Value))
    (self : ProcessDataSource) : ProcessDataSource :=
  set_genesis_node (fst st) (set_objects (snd st) self).

Definition genesis_state (self : ProcessDataSource)
  : option loc * gmap loc (dict Value) :=
  (genesis_node self, objects (data self)).

(** ** The dispatcher: registered names *)


(** ** Example documents *)

(** The offsets of the specification's example. *)
Definition example_offsets : Value :=
  VDict [("default", VInt 50); ("oob", VInt 10); ("gateway", VInt 1);
         ("ingress_vip", VInt 5); ("static_ip_end", VInt 200);
         ("dhcp_ip_end", VInt 220)].

Definition example_site : SiteData :=
  mkSiteData
    [("oob", [("subnet", VStr "10.0.0.0/24")]);
     ("ingress", [("subnet", VList [VStr "172.16.0.0/24"; VStr "172.16.1.0/24"])]);
     ("pxe", [("subnet", VStr "10.0.1.0/24"); ("vlan", VStr "41")]);
     ("oam", [("subnet", VStr "10.0.2.0/24"); ("vlan", VStr "42")]);
     ("storage", [("subnet", VStr "192.168.10.0/24"); ("vlan", VStr "43");
                  ("mtu", VInt 9000)])]
    [("asnumber", VInt 64671)]
    [("rack1", [("h1", 1%nat); ("h2", 2%nat)]); ("rack2", [("h3", 3%nat)])]
    (<[1%nat := [("type", VStr "worker"); ("host_profile", VStr "cp")]]>
       (<[2%nat := [("type", VStr "genesis"); ("host_profile", VStr "cp")]]>
          (<[3%nat := [("type", VStr "genesis")]]> ∅))).

Definition example_self : ProcessDataSource :=
  load_extracted_data_from_data_source example_site.

Definition example_run : Result unit * ProcessDataSource :=
  _apply_rule_ip_alloc_offset IPv4Text.IPNetwork_of IPv4Text.str_addr
    IPv4Text.str_net example_offsets example_self.

Definition example_entry (net_type : string) : dict Value :=
  default [] (dict_get net_type (vlan_network_data (data (snd example_run)))).

(** A small subnet with offsets next to each other. *)
Definition tight_offsets : Value :=
  VDict [("default", VInt 1); ("oob", VInt 1); ("gateway", VInt 1);
         ("ingress_vip", VInt 5); ("static_ip_end", VInt 2);
         ("dhcp_ip_end", VInt 14)].

Definition tight_self : ProcessDataSource :=
  load_extracted_data_from_data_source
    (mkSiteData
       [("ingress", [("subnet", VList [VStr "172.16.0.0/28"])]);
        ("storage", [("subnet", VStr "10.0.0.0/28"); ("vlan", VStr "43")])]
       [] [] ∅).

Definition tight_run : Result unit * ProcessDataSource :=
  _apply_rule_ip_alloc_offset IPv4Text.IPNetwork_of IPv4Text.str_addr
    IPv4Text.str_net tight_offsets tight_self.


Definition example_lookup : Result unit * ProcessDataSource :=
  _get_genesis_node_details example_self.

(** ** The rule: what a failed run leaves *)

(** The names of the offsets that the rule reads from its payload. *)
Definition offset_names : list string :=
  ["default"; "oob"; "gateway"; "ingress_vip"; "static_ip_end"; "dhcp_ip_end"].

(** The state once the rule has written the two fields of [bgp]. *)
Definition bgp_written (ingress_vip cidr : Value) (self : ProcessDataSource)
  : ProcessDataSource :=
  set_bgp (dict_set "public_service_cidr" cidr
             (dict_set "ingress_vip" ingress_vip (bgp (data self)))) self.

(** ** The genesis node: who wrote last *)

(** The last genesis host, in the order of the lookup, whose mapping is at
    the location [h]. *)
Definition last_writer (o : gmap loc (dict Value)) (refs : list (string * loc))
    (h : loc) : option (string * loc) :=
  find_last (fun r => Nat.eqb (snd r) h && is_genesis o (snd r)) refs.

(** ** The validator's list of hosts and the name of the output file *)

(** [_validate_extracted_data], the loop that turns the baremetal block into
    a list: for every rack, one single-key mapping per host, appended to
    [baremetal_list]. *)
Fixpoint baremetal_list_loop {V : Type} (bm : dict (dict V)) (racks : list string)
    (baremetal_list : list (dict V)) : Result (list (dict V)) :=
  match racks with
  | [] => Ok baremetal_list
  | rack :: rest =>
      rack_hosts ← subscript bm rack;
      let temp := map (fun kv : string * V => [(fst kv, snd kv)]) rack_hosts in
      baremetal_list_loop bm rest (baremetal_list ++ temp)%list
  end.

Definition baremetal_list_of {V : Type} (bm : dict (dict V)) : Result (list (dict V)) :=
  baremetal_list_loop bm (dict_keys bm) [].

(** [dump_intermediary_file], the path it writes to: the region name with
    [_intermediary.yaml] after it, under [intermediary_dir] when there is
    one. *)
Definition intermediary_outfile (region_name : string)
    (intermediary_dir : option string) : string :=
  let intermediary_file := (region_name ++ "_intermediary.yaml")%string in
  match intermediary_dir with
  | Some dir => (dir ++ "/" ++ intermediary_file)%string
  | None => intermediary_file
  end.

(** ** More example documents *)

(** [example_offsets] as the rule reads them. *)
Definition example_offsets_read : Offsets :=
  mkOffsets (VInt 50) (VInt 10) (VInt 1) (VInt 5) (VInt 200) (VInt 220).

(** A payload without the [oob] offset. *)
Definition short_offsets : Value :=
  VDict [("default", VInt 50); ("gateway", VInt 1); ("ingress_vip", VInt 5);
         ("static_ip_end", VInt 200); ("dhcp_ip_end", VInt 220)].

(** A document without an ingress network. *)
Definition no_ingress_self : ProcessDataSource :=
  load_extracted_data_from_data_source
    (mkSiteData [("storage", [("subnet", VStr "192.168.10.0/24"); ("vlan", VStr "43")])]
       [] [] ∅).

(** A document whose [storage] network has no [subnet]. *)
Definition no_subnet_self : ProcessDataSource :=
  load_extracted_data_from_data_source
    (mkSiteData
       [("ingress", [("subnet", VList [VStr "172.16.0.0/24"])]);
        ("oam", [("subnet", VStr "10.0.2.0/24"); ("vlan", VStr "42")]);
        ("storage", [("vlan", VStr "43")])]
       [("asnumber", VInt 64671)] [] ∅).

(** A rule collection whose entries all have a handler. *)
Definition good_rules : dict Value :=
  [("rule_hardware_profile",
    VDict [("name", VStr "hardware_profile"); ("hardware_profile", VDict [])]);
   ("rule_ip_alloc_offset",
    VDict [("name", VStr "ip_alloc_offset"); ("ip_alloc_offset", example_offsets)])].

(** A rule collection with an entry that has no payload. *)
Definition bare_rules : dict Value :=
  [("rule_hardware_profile", VDict [("name", VStr "hardware_profile")])].

Definition good_rules_run : Result unit * ProcessDataSource :=
  _apply_design_rules IPv4Text.IPNetwork_of IPv4Text.str_addr IPv4Text.str_net
    good_rules example_self.

(** A processor that holds the genesis node of an earlier document, and a
    document without a genesis host. *)
Definition stale_self : ProcessDataSource :=
  mkProcessDataSource
    (mkSiteData [] [] [("rack1", [("h1", 1%nat); ("h2", 2%nat)])]
       (<[1%nat := [("type", VStr "worker")]]>
          (<[2%nat := [("type", VStr "controller")]]>
             (<[9%nat := [("type", VStr "genesis"); ("name", VStr "old")]]> ∅))))
    (Some 9%nat).

(** A document with a host that has no [type]. *)
Definition untyped_self : ProcessDataSource :=
  load_extracted_data_from_data_source
    (mkSiteData [] [] [("rack1", [("h1", 1%nat); ("h2", 2%nat)])]
       (<[1%nat := [("type", VStr "genesis")]]>
          (<[2%nat := [("host_profile", VStr "cp")]]> ∅))).

(** A document in which the hosts [h2] and [h3] share one mapping. *)
Definition shared_self : ProcessDataSource :=
  load_extracted_data_from_data_source
    (mkSiteData [] [] [("rack1", [("h1", 1%nat); ("h2", 2%nat); ("h3", 2%nat)])]
       (<[1%nat := [("type", VStr "worker")]]>
          (<[2%nat := [("type", VStr "genesis")]]> ∅))).

(** ** Lemmas on dictionaries and results *)

Lemma dict_get_set_eq {V : Type} (k : string) (v : V) (d : dict V) :
  dict_get k (dict_set k v d) = Some v.
Proof.
  induction d as [|[k' v'] d IH]; simpl.
  - now rewrite String.eqb_refl.
  - destruct (String.eqb k k') eqn:E; simpl; rewrite E; auto.
Qed.

Lemma dict_get_set_ne {V : Type} (k k' : string) (v : V) (d : dict V) :
  k <> k' -> dict_get k' (dict_set k v d) = dict_get k' d.
Proof.
  intros Hne. induction d as [|[k0 v0] d IH]; simpl.
  - apply String.eqb_neq in Hne. rewrite String.eqb_sym in Hne. now rewrite Hne.
  - destruct (String.eqb k k0) eqn:E; simpl.
    + apply String.eqb_eq in E. subst k0.
      destruct (String.eqb k' k) eqn:E'; auto.
      apply String.eqb_eq in E'. congruence.
    + now rewrite IH.
Qed.

Lemma dict_set_set {V : Type} (k : string) (v w : V) (d : dict V) :
  dict_set k w (dict_set k v d) = dict_set k w d.
Proof.
  induction d as [|[k' v'] d IH]; simpl.
  - now rewrite String.eqb_refl.
  - destruct (String.eqb k k') eqn:E; simpl; rewrite E; congruence.
Qed.

Lemma dict_get_In_keys {V : Type} (k : string) (d : dict V) :
  In k (dict_keys d) <-> exists v, dict_get k d = Some v.
Proof.
  induction d as [|[k' v'] d IH]; simpl.
  - split; [tauto | intros [v Hv]; discriminate].
  - destruct (String.eqb k k') eqn:E.
    + apply String.eqb_eq in E. subst. split; eauto.
    + apply String.eqb_neq in E. rewrite <- IH. split; [|tauto].
      intros [H|H]; [congruence | auto].
Qed.

Lemma dict_keys_set_present {V : Type} (k : string) (v : V) (d : dict V) :
  In k (dict_keys d) -> dict_keys (dict_set k v d) = dict_keys d.
Proof.
  induction d as [|[k' v'] d IH]; simpl; [tauto|].
  intros H. destruct (String.eqb k k') eqn:E; simpl; auto.
  apply String.eqb_neq in E. f_equal. apply IH. destruct H; congruence.
Qed.

Lemma dict_keys_set_In {V : Type} (k k' : string) (v : V) (d : dict V) :
  In k' (dict_keys (dict_set k v d)) <-> k' = k \/ In k' (dict_keys d).
Proof.
  induction d as [|[k0 v0] d IH]; simpl.
  - intuition congruence.
  - destruct (String.eqb k k0) eqn:E; simpl.
    + apply String.eqb_eq in E. subst. intuition congruence.
    + rewrite IH. tauto.
Qed.

Lemma dict_keys_set_NoDup {V : Type} (k : string) (v : V) (d : dict V) :
  List.NoDup (dict_keys d) -> List.NoDup (dict_keys (dict_set k v d)).
Proof.
  induction d as [|[k0 v0] d IH]; simpl; intros H.
  - constructor; [simpl; tauto | constructor].
  - inversion H as [|? ? Hnin Hnd]; subst.
    destruct (String.eqb k k0) eqn:E; simpl.
    + now constructor.
    + constructor; auto. rewrite dict_keys_set_In.
      apply String.eqb_neq in E. intuition congruence.
Qed.

Lemma subscript_Ok {V : Type} (d : dict V) (k : string) (v : V) :
  subscript d k = Ok v <-> dict_get k d = Some v.
Proof.
  unfold subscript. destruct (dict_get k d); split; congruence.
Qed.

Lemma result_bind_Ok {A B : Type} (r : Result A) (k : A -> Result B) (b : B) :
  r ≫= k = Ok b -> exists a, r = Ok a /\ k a = Ok b.
Proof. destruct r; simpl; [eauto | discriminate]. Qed.

Lemma method_bind_Ok {A B : Type} (m : M A) (k : A -> M B) (b : B)
    (self self' : ProcessDataSource) :
  (m ≫= k) self = (Ok b, self') ->
  exists a self1, m self = (Ok a, self1) /\ k a self1 = (Ok b, self').
Proof.
  unfold mbind, method_bind. destruct (m self) as [[a|e] s1]; [eauto | discriminate].
Qed.

Lemma lift_Ok {A : Type} (r : Result A) (a : A) (self self' : ProcessDataSource) :
  lift r self = (Ok a, self') -> r = Ok a /\ self' = self.
Proof. unfold lift. intros H. inversion H. auto. Qed.

(** Peels the binds of a computation that is known to return. *)
Ltac result_inv H :=
  repeat match type of H with
  | _ ≫= _ = Ok _ =>
      let a := fresh "a" in let Ha := fresh "Hr" in
      apply result_bind_Ok in H; destruct H as (a & Ha & H)
  end.

Lemma list_index_Ok {A : Type} (l : list A) (v : Value) (a : A) :
  list_index l v = Ok a -> exists i, v = VInt i /\ py_index l i = Ok a.
Proof. destruct v; simpl; try discriminate. eauto. Qed.

Lemma IPNetwork_new_Ok (f : Value -> option IPNetwork) (v : Value) (n : IPNetwork) :
  IPNetwork_new f v = Ok n <-> f v = Some n.
Proof. unfold IPNetwork_new. destruct (f v); split; congruence. Qed.

Ltac results_inv :=
  repeat match goal with
  | H : _ ≫= _ = Ok _ |- _ =>
      apply result_bind_Ok in H; destruct H as (? & ? & H)
  | H : subscript _ _ = Ok _ |- _ => apply subscript_Ok in H
  | H : IPNetwork_new _ _ = Ok _ |- _ => apply IPNetwork_new_Ok in H
  | H : list_index _ _ = Ok _ |- _ =>
      apply list_index_Ok in H; destruct H as (? & ? & ?); subst
  | H : Ok _ = Ok _ |- _ => inversion H; subst; clear H
  | H : (let '(_, _) := ?p in _) = Ok _ |- _ => destruct p; simpl in H
  end.

Ltac method_inv H :=
  repeat match type of H with
  | (_ ≫= _) _ = (Ok _, _) =>
      let a := fresh "a" in let s := fresh "s" in let Ha := fresh "Hm" in
      apply method_bind_Ok in H; destruct H as (a & s & Ha & H)
  end;
  repeat match goal with
  | Hl : lift _ _ = (Ok _, _) |- _ =>
      apply lift_Ok in Hl; destruct Hl as [Hl ?]; subst
  | Hg : get_self _ = (Ok _, _) |- _ =>
      unfold get_self in Hg; inversion Hg; subst; clear Hg
  | Hg : modify _ _ = (Ok _, _) |- _ =>
      unfold modify in Hg; inversion Hg; subst; clear Hg
  end.

(** ** Indexing the address list of a network *)

Lemma py_index_Ok {A : Type} (l : list A) (i : Z) (a : A) :
  py_index l i = Ok a <->
  0 <= py_position (Z.of_nat (length l)) i < Z.of_nat (length l) /\
  nth_error l (Z.to_nat (py_position (Z.of_nat (length l)) i)) = Some a.
Proof.
  unfold py_index, py_position.
  set (n := Z.of_nat (length l)). set (j := if i <? 0 then n + i else i).
  destruct (0 <=? j) eqn:E1; destruct (j <? n) eqn:E2; simpl;
    try (split; [discriminate | intros [? _]; lia]).
  destruct (nth_error l (Z.to_nat j)) eqn:E3.
  - split; [intros H; inversion H; subst; split; [lia | auto] | intros [_ H]; congruence].
  - split; [discriminate | intros [_ H]; discriminate].
Qed.

Lemma ip_list_length (n : IPNetwork) :
  length (ip_list n) = Z.to_nat (last n - first n + 1).
Proof. unfold ip_list. now rewrite length_map, length_seq. Qed.

Lemma ip_list_nth (n : IPNetwork) (j : nat) (a : IPAddress) :
  nth_error (ip_list n) j = Some a ->
  a = mkIPAddress (net_version n) (first n + Z.of_nat j) /\
  (j < length (ip_list n))%nat.
Proof.
  intros H. split.
  - unfold ip_list in H. rewrite nth_error_map in H.
    destruct (nth_error (seq 0 (Z.to_nat (last n - first n + 1))) j) eqn:E;
      [|discriminate].
    simpl in H. inversion H; subst.
    assert (Hlt : (j < length (seq 0 (Z.to_nat (last n - first n + 1))))%nat)
      by (apply nth_error_Some; congruence).
    rewrite length_seq in Hlt.
    apply nth_error_nth with (d := 0%nat) in E.
    rewrite seq_nth in E by exact Hlt. subst. reflexivity.
  - apply nth_error_Some. congruence.
Qed.

(** An index that [list(subnet)] accepts names the address at its position,
    counted from the first address of the network. *)
Lemma ip_list_index (n : IPNetwork) (i : Z) (a : IPAddress) :
  py_index (ip_list n) i = Ok a ->
  let p := py_position (Z.of_nat (length (ip_list n))) i in
  0 <= p < Z.of_nat (length (ip_list n)) /\
  addr_version a = net_version n /\
  addr_value a = first n + p.
Proof.
  intros H p. apply py_index_Ok in H. destruct H as [Hp Hn].
  fold p in Hp, Hn. apply ip_list_nth in Hn. destruct Hn as [-> _].
  simpl. repeat split; lia.
Qed.

Lemma py_index_returns {A : Type} (l : list A) (i : Z) :
  - Z.of_nat (length l) <= i < Z.of_nat (length l) ->
  exists a, py_index l i = Ok a.
Proof.
  intros H. unfold py_index.
  set (n := Z.of_nat (length l)) in *. set (j := if i <? 0 then n + i else i).
  assert (Hj : 0 <= j < n) by (unfold j; destruct (Z.ltb_spec i 0); lia).
  replace (0 <=? j) with true by (symmetry; apply Z.leb_le; lia).
  replace (j <? n) with true by (symmetry; apply Z.ltb_lt; lia).
  simpl. destruct (nth_error l (Z.to_nat j)) eqn:E; [eauto|].
  apply nth_error_None in E. lia.
Qed.

(** ** What the rule computes for one network *)

Lemma collect_rules_Ok rule_data off :
  collect_rules rule_data = Ok off ->
  subscript_key rule_data "default" = Ok (default_ip_offset off) /\
  subscript_key rule_data "oob" = Ok (oob_ip_offset off) /\
  subscript_key rule_data "gateway" = Ok (gateway_ip_offset off) /\
  subscript_key rule_data "ingress_vip" = Ok (ingress_vip_offset off) /\
  subscript_key rule_data "static_ip_end" = Ok (static_ip_end_offset off) /\
  subscript_key rule_data "dhcp_ip_end" = Ok (dhcp_ip_end_offset off).
Proof.
  unfold collect_rules. intros H.
  repeat match type of H with
  | _ ≫= _ = Ok _ => apply result_bind_Ok in H; destruct H as (? & ? & H)
  end.
  inversion H; subst; simpl. tauto.
Qed.

Lemma ip_offset_of_offset rule_data off net_type io :
  collect_rules rule_data = Ok off ->
  ip_offset_of off net_type = VInt io ->
  offset rule_data (ip_offset_name net_type) io.
Proof.
  intros Hc Hio. apply collect_rules_Ok in Hc.
  unfold ip_offset_of, ip_offset_name, offset in *.
  destruct (String.eqb net_type "oob"); rewrite <- Hio; tauto.
Qed.

Section Properties.

Variable IPNetwork_of : Value -> option IPNetwork.
Variable str_addr : IPAddress -> string.
Variable str_net : IPNetwork -> string.

Abbreviation resolve := (resolve_entry str_addr str_net).
Abbreviation ip_alloc_offset := (_apply_rule_ip_alloc_offset IPNetwork_of str_addr str_net).
Abbreviation network_subnets_of := (_get_network_subnets IPNetwork_of).
Abbreviation str a := (VStr (str_addr a)).

Lemma resolve_entry_Ok off net_type subnet self e :
  resolve off net_type subnet self = Ok e ->
  let ips := ip_list subnet in
  exists gw io se a_gw a_rs a_re a_ss a_se a_end dhcp vlan,
    gateway_ip_offset off = VInt gw /\
    ip_offset_of off net_type = VInt io /\
    static_ip_end_offset off = VInt se /\
    py_index ips gw = Ok a_gw /\
    py_index ips 1 = Ok a_rs /\
    py_index ips io = Ok a_re /\
    py_index ips (io + 1) = Ok a_ss /\
    py_index ips se = Ok a_se /\
    (if String.eqb net_type "pxe" then
       exists de a_m a_de,
         let mid := Z.of_nat (length ips) / 2 in
         dhcp_ip_end_offset off = VInt de /\
         py_index ips (mid - 1) = Ok a_end /\
         py_index ips mid = Ok a_m /\
         py_index ips de = Ok a_de /\
         dhcp = [("dhcp_start", str a_m); ("dhcp_end", str a_de)]
     else a_end = a_se /\ dhcp = []) /\
    (if String.eqb net_type "oob" then vlan = []
     else exists old v,
         dict_get net_type (vlan_network_data (data self)) = Some old /\
         dict_get "vlan" old = Some v /\
         vlan = [("vlan", v)]) /\
    e = entry_fields (VStr (str_net subnet)) (str a_gw) (str a_rs) (str a_re)
          dhcp (str a_ss) (str a_end) vlan (VList (routes_of net_type)).
Proof.
  intros H ips. unfold resolve_entry in H. fold ips in H.
  fold (ip_offset_of off net_type) in H. fold (routes_of net_type) in H.
  destruct (String.eqb net_type "pxe") eqn:Epxe;
    destruct (String.eqb net_type "oob") eqn:Eoob;
    try (apply String.eqb_eq in Epxe, Eoob; congruence);
    simpl in H; results_inv;
    match goal with
    | Hio : ip_offset_of off net_type = VInt _, Ha : py_add_one _ = Ok _ |- _ =>
        rewrite Hio in Ha; simpl in Ha; inversion Ha; subst; clear Ha
    end;
    do 11 eexists; repeat (split; [eassumption || reflexivity|]).
  - split; [eauto 10 | split; [eauto | reflexivity]].
  - split; [eauto | split; [eauto | reflexivity]].
  - split; [eauto | split; [eauto | reflexivity]].
Qed.

(** The entry of a network type depends on the state only through the
    entry that the state holds for that type. *)
Lemma resolve_entry_ext off net_type subnet s1 s2 :
  dict_get net_type (vlan_network_data (data s1)) =
  dict_get net_type (vlan_network_data (data s2)) ->
  resolve off net_type subnet s1 = resolve off net_type subnet s2.
Proof.
  intros H. unfold resolve_entry, subscript. now rewrite H.
Qed.

Lemma network_subnets_loop_Ok ks vlan acc ns :
  network_subnets_loop IPNetwork_of ks vlan acc = Ok ns ->
  List.NoDup (dict_keys acc) ->
  List.NoDup (dict_keys ns) /\
  (forall k, In k (dict_keys ns) <->
             In k (dict_keys acc) \/ (In k ks /\ k <> "ingress")) /\
  (forall k, In k ks -> k <> "ingress" ->
     exists entry sv net,
       dict_get k vlan = Some entry /\ dict_get "subnet" entry = Some sv /\
       IPNetwork_of sv = Some net /\ dict_get k ns = Some net) /\
  (forall k, ~ In k ks -> dict_get k ns = dict_get k acc).
Proof.
  revert acc. induction ks as [|k0 ks IH]; simpl; intros acc H Hnd.
  - inversion H; subst. repeat split; auto; try tauto.
  - destruct (String.eqb k0 "ingress") eqn:E; simpl in H.
    + apply String.eqb_eq in E. subst k0.
      destruct (IH _ H Hnd) as (Hnd' & Hk & Hv & Hf).
      split; [auto|]. split; [|split].
      * intros k. rewrite Hk. intuition congruence.
      * intros k [->|Hin] Hne; [congruence | auto].
      * intros k Hnin. apply Hf. tauto.
    + apply String.eqb_neq in E. results_inv.
      destruct (IH _ H (dict_keys_set_NoDup k0 _ acc Hnd)) as (Hnd' & Hk & Hv & Hf).
      split; [auto|]. split; [|split].
      * intros k. rewrite Hk, dict_keys_set_In.
        destruct (string_dec k k0); subst; intuition congruence.
      * intros k [->|Hin] Hne; [|auto].
        destruct (in_dec string_dec k ks) as [Hin|Hnin]; [auto|].
        exists x, x0, x1. repeat split; auto.
        rewrite (Hf _ Hnin). apply dict_get_set_eq.
      * intros k Hnin. rewrite Hf by tauto.
        apply dict_get_set_ne. tauto.
Qed.

Lemma vlan_networks_loop_Ok off ns ks s s' :
  vlan_networks_loop str_addr str_net off ks ns s = (Ok tt, s') ->
  bgp (data s') = bgp (data s) /\
  baremetal (data s') = baremetal (data s) /\
  objects (data s') = objects (data s) /\
  genesis_node s' = genesis_node s /\
  (forall k, ~ In k ks ->
     dict_get k (vlan_network_data (data s')) =
     dict_get k (vlan_network_data (data s))) /\
  (List.NoDup ks -> forall k, In k ks ->
     exists net e,
       dict_get k ns = Some net /\ resolve off k net s = Ok e /\
       dict_get k (vlan_network_data (data s')) = Some e) /\
  ((forall k, In k ks -> In k (dict_keys (vlan_network_data (data s)))) ->
   dict_keys (vlan_network_data (data s')) =
   dict_keys (vlan_network_data (data s))).
Proof.
  revert s. induction ks as [|k0 ks IH]; simpl; intros s H.
  - inversion H; subst. repeat split; auto. intros _ k [].
  - method_inv H. results_inv.
    apply IH in H. simpl in H.
    destruct H as (Hb & Hbm & Ho & Hg & Hout & Hin & Hkeys).
    repeat (split; [assumption|]). split; [|split].
    + intros k Hk. rewrite Hout by tauto. apply dict_get_set_ne. tauto.
    + intros Hnd k Hk. inversion Hnd as [|? ? Hnin Hnd']; subst.
      destruct (string_dec k0 k) as [->|Hne].
      * exists a, a1. repeat split; auto.
        rewrite (Hout _ Hnin). apply dict_get_set_eq.
      * destruct Hk as [?|Hk]; [congruence|].
        destruct (Hin Hnd' _ Hk) as (net & e & Hns & Hres & Hget).
        exists net, e. repeat split; auto.
        rewrite <- Hres. apply resolve_entry_ext. simpl.
        symmetry. now apply dict_get_set_ne.
    + intros Hall. rewrite Hkeys.
      * apply dict_keys_set_present. auto.
      * intros k Hk. apply dict_keys_set_In. auto.
Qed.

Lemma network_subnets_Ok self ns :
  network_subnets_of self = Ok ns ->
  List.NoDup (dict_keys ns) /\
  (forall k, In k (dict_keys ns) <->
             In k (dict_keys (vlan_network_data (data self))) /\ k <> "ingress") /\
  (forall k net, dict_get k ns = Some net ->
     exists entry sv,
       dict_get k (vlan_network_data (data self)) = Some entry /\
       dict_get "subnet" entry = Some sv /\ IPNetwork_of sv = Some net).
Proof.
  unfold _get_network_subnets. intros H.
  apply network_subnets_loop_Ok in H; [|constructor].
  destruct H as (Hnd & Hk & Hv & _). split; [auto|]. split.
  - intros k. rewrite Hk. simpl. tauto.
  - intros k net Hget.
    assert (Hin : In k (dict_keys ns)) by (apply dict_get_In_keys; eauto).
    apply Hk in Hin. destruct Hin as [[]|[Hin Hne]].
    destruct (Hv _ Hin Hne) as (entry & sv & net' & H1 & H2 & H3 & H4).
    exists entry, sv. repeat split; auto. congruence.
Qed.

(** What a run of the rule that returns has done: the two fields of [bgp]
    come from the first subnet of the ingress network, the ingress entry is
    as it was, and the entry of every other network type is the one that
    [resolve_entry] builds from the entry that was there. *)
Lemma ip_alloc_offset_Ok rule_data self self' :
  ip_alloc_offset rule_data self = (Ok tt, self') ->
  exists off ingress sv s0 subnet i vip,
    collect_rules rule_data = Ok off /\
    dict_get "ingress" (vlan_network_data (data self)) = Some ingress /\
    dict_get "subnet" ingress = Some sv /\
    subscript_zero sv = Ok s0 /\
    IPNetwork_of s0 = Some subnet /\
    ingress_vip_offset off = VInt i /\
    py_index (ip_list subnet) i = Ok vip /\
    bgp (data self') =
      dict_set "public_service_cidr" s0
        (dict_set "ingress_vip" (str vip) (bgp (data self))) /\
    baremetal (data self') = baremetal (data self) /\
    objects (data self') = objects (data self) /\
    genesis_node self' = genesis_node self /\
    dict_keys (vlan_network_data (data self')) =
      dict_keys (vlan_network_data (data self)) /\
    dict_get "ingress" (vlan_network_data (data self')) = Some ingress /\
    forall net_type e,
      net_type <> "ingress" ->
      dict_get net_type (vlan_network_data (data self')) = Some e ->
      exists old sv net,
        dict_get net_type (vlan_network_data (data self)) = Some old /\
        dict_get "subnet" old = Some sv /\
        IPNetwork_of sv = Some net /\
        resolve off net_type net self = Ok e.
Proof.
  unfold _apply_rule_ip_alloc_offset. intros H.
  method_inv H. simpl in *. results_inv.
  match goal with
  | H1 : dict_get "ingress" _ = Some ?x, H2 : dict_get "ingress" _ = Some ?y |- _ =>
      rewrite H1 in H2; inversion H2; subst; clear H2
  end.
  match goal with
  | H1 : dict_get "subnet" _ = Some ?x, H2 : dict_get "subnet" _ = Some ?y |- _ =>
      rewrite H1 in H2; inversion H2; subst; clear H2
  end.
  match goal with
  | H1 : subscript_zero _ = Ok ?x, H2 : subscript_zero _ = Ok ?y |- _ =>
      rewrite H1 in H2; inversion H2; subst; clear H2
  end.
  match goal with
  | Hns : network_subnets_of _ = Ok ?ns |- _ =>
      apply network_subnets_Ok in Hns; simpl in Hns;
      destruct Hns as (Hnd & Hkeys & Hsub)
  end.
  apply vlan_networks_loop_Ok in H. simpl in H.
  destruct H as (Hb & Hbm & Ho & Hg & Hout & Hin & Hsame).
  do 7 eexists. repeat (split; [eassumption || reflexivity|]).
  pose proof (Hsame (fun k Hk => proj1 (proj1 (Hkeys k) Hk))) as Hk.
  split; [exact Hk|]. split.
  - rewrite Hout; [assumption|]. rewrite Hkeys. tauto.
  - intros net_type e Hne Hget.
    match goal with
    | _ : List.NoDup (dict_keys ?ns) |- _ => assert (Hink : In net_type (dict_keys ns))
    end.
    { apply Hkeys. split; [|assumption]. rewrite <- Hk.
      apply dict_get_In_keys. eauto. }
    destruct (Hin Hnd _ Hink) as (net & e' & Hns & Hres & Hget').
    destruct (Hsub _ _ Hns) as (old & sv & Hold & Hsv & Hnet).
    exists old, sv, net. repeat split; auto.
    rewrite Hget in Hget'. inversion Hget'; subst.
    rewrite <- Hres. now apply resolve_entry_ext.
Qed.

(** [resolve_entry] returns when the offsets it uses are integers inside
    the address list and, for a type other than [oob], the entry has a
    [vlan]. *)
Lemma resolve_entry_returns off net_type subnet self gw io se de :
  let N := Z.of_nat (length (ip_list subnet)) in
  gateway_ip_offset off = VInt gw ->
  ip_offset_of off net_type = VInt io ->
  static_ip_end_offset off = VInt se ->
  dhcp_ip_end_offset off = VInt de ->
  2 <= N ->
  - N <= gw < N ->
  - N <= io < N - 1 ->
  - N <= se < N ->
  (net_type = "pxe" -> - N <= de < N) ->
  (net_type <> "oob" ->
   exists old v,
     dict_get net_type (vlan_network_data (data self)) = Some old /\
     dict_get "vlan" old = Some v) ->
  exists e, resolve off net_type subnet self = Ok e.
Proof.
  intros N Hgw Hio Hse Hde HN Rgw Rio Rse Rde Hvlan.
  assert (Hm : 1 <= N / 2 < N).
  { split; [apply Z.div_le_lower_bound; lia | apply Z.div_lt; lia]. }
  assert (Hvlan' : negb (String.eqb net_type "oob") = true ->
                   exists old v,
                     dict_get net_type (vlan_network_data (data self)) = Some old /\
                     dict_get "vlan" old = Some v).
  { intros E. apply Hvlan. apply String.eqb_neq.
    now destruct (String.eqb net_type "oob"). }
  unfold resolve_entry. fold (ip_offset_of off net_type).
  rewrite Hgw, Hio, Hse, Hde. simpl list_index. simpl py_add_one. fold N.
  destruct (py_index_returns (ip_list subnet) gw) as [a_gw ->]; [fold N; lia|].
  destruct (py_index_returns (ip_list subnet) 1) as [a_rs ->]; [fold N; lia|].
  destruct (py_index_returns (ip_list subnet) io) as [a_re ->]; [fold N; lia|].
  cbn [mbind result_bind list_index].
  destruct (py_index_returns (ip_list subnet) (io + 1)) as [a_ss ->]; [fold N; lia|].
  destruct (py_index_returns (ip_list subnet) se) as [a_se ->]; [fold N; lia|].
  cbn [mbind result_bind].
  destruct (String.eqb net_type "pxe") eqn:Epxe.
  - apply String.eqb_eq in Epxe.
    destruct (py_index_returns (ip_list subnet) (N / 2 - 1)) as [a_end ->]; [fold N; lia|].
    destruct (py_index_returns (ip_list subnet) (N / 2)) as [a_m ->]; [fold N; lia|].
    destruct (py_index_returns (ip_list subnet) de) as [a_de ->]; [fold N; auto|].
    cbn [mbind result_bind].
    destruct (negb (String.eqb net_type "oob")); [|cbn; eauto].
    destruct Hvlan' as (old & v & Hold & Hv); [reflexivity|].
    unfold subscript. rewrite Hold. cbn [mbind result_bind]. rewrite Hv. cbn. eauto.
  - cbn [mbind result_bind].
    destruct (negb (String.eqb net_type "oob")); [|cbn; eauto].
    destruct Hvlan' as (old & v & Hold & Hv); [reflexivity|].
    unfold subscript. rewrite Hold. cbn [mbind result_bind]. rewrite Hv. cbn. eauto.
Qed.

Lemma network_subnets_loop_returns ks vlan acc :
  (forall k, In k ks -> k <> "ingress" ->
     exists entry sv net,
       dict_get k vlan = Some entry /\ dict_get "subnet" entry = Some sv /\
       IPNetwork_of sv = Some net) ->
  exists ns, network_subnets_loop IPNetwork_of ks vlan acc = Ok ns.
Proof.
  revert acc. induction ks as [|k ks IH]; intros acc H; simpl; [eauto|].
  destruct (String.eqb k "ingress") eqn:E; simpl.
  - apply IH. intros k' Hk'. apply H. simpl. auto.
  - apply String.eqb_neq in E.
    destruct (H k) as (entry & sv & net & H1 & H2 & H3); [simpl; auto | auto |].
    unfold subscript, IPNetwork_new. rewrite H1. simpl. rewrite H2. simpl.
    rewrite H3. simpl. apply IH. intros k' Hk'. apply H. simpl. auto.
Qed.

Lemma vlan_networks_loop_returns off ns ks s :
  List.NoDup ks ->
  (forall k, In k ks ->
     exists net e, dict_get k ns = Some net /\ resolve off k net s = Ok e) ->
  exists s', vlan_networks_loop str_addr str_net off ks ns s = (Ok tt, s').
Proof.
  revert s. induction ks as [|k ks IH]; intros s Hnd H; simpl; [eauto|].
  inversion Hnd as [|? ? Hnin Hnd']; subst.
  destruct (H k) as (net & e & Hns & Hres); [simpl; auto|].
  unfold mbind, method_bind, lift, get_self, modify, subscript.
  rewrite Hns, Hres. apply IH; [assumption|].
  intros k' Hk'. destruct (H k') as (net' & e' & Hns' & Hres'); [simpl; auto|].
  exists net', e'. split; [assumption|]. rewrite <- Hres'.
  apply resolve_entry_ext. simpl. apply dict_get_set_ne. congruence.
Qed.

(** The rule returns when the payload has the six offsets, the first subnet
    of the ingress network is parsed and holds [offsets.ingress_vip], and
    every other network has a subnet that is parsed and an entry that
    [resolve_entry] can build. *)
Lemma ip_alloc_offset_returns rule_data self off ingress sv s0 subnet vip :
  collect_rules rule_data = Ok off ->
  dict_get "ingress" (vlan_network_data (data self)) = Some ingress ->
  dict_get "subnet" ingress = Some sv ->
  subscript_zero sv = Ok s0 ->
  IPNetwork_of s0 = Some subnet ->
  list_index (ip_list subnet) (ingress_vip_offset off) = Ok vip ->
  (forall net_type, In net_type (dict_keys (vlan_network_data (data self))) ->
     net_type <> "ingress" ->
     exists old sv net e,
       dict_get net_type (vlan_network_data (data self)) = Some old /\
       dict_get "subnet" old = Some sv /\
       IPNetwork_of sv = Some net /\
       resolve off net_type net self = Ok e) ->
  exists self', ip_alloc_offset rule_data self = (Ok tt, self').
Proof.
  intros Hc Hin Hsv Hs0 Hnet Hvip Hall.
  unfold _apply_rule_ip_alloc_offset.
  unfold mbind at 1, method_bind at 1, lift at 1. rewrite Hc.
  unfold mbind, method_bind, lift, get_self, modify, subscript, IPNetwork_new.
  simpl. rewrite Hin, Hsv, Hs0, Hnet, Hvip.
  destruct (network_subnets_loop_returns
              (dict_keys (vlan_network_data (data self)))
              (vlan_network_data (data self)) []) as [ns Hns].
  { intros k Hk Hne. destruct (Hall k Hk Hne) as (old & sv' & net & e & ?).
    exists old, sv', net. tauto. }
  unfold _get_network_subnets. simpl. rewrite Hns.
  pose proof (network_subnets_Ok self ns Hns) as (Hnd & Hkeys & Hsub).
  apply vlan_networks_loop_returns; [exact Hnd|].
  intros k Hk. apply Hkeys in Hk. destruct Hk as [Hk Hne].
  destruct (Hall k Hk Hne) as (old & sv' & net & e & H1 & H2 & H3 & H4).
  assert (Hget : exists net', dict_get k ns = Some net').
  { apply dict_get_In_keys. apply Hkeys. auto. }
  destruct Hget as [net' Hget].
  destruct (Hsub _ _ Hget) as (old' & sv'' & H1' & H2' & H3').
  assert (net' = net) by congruence. subst net'.
  exists net, e. split; [assumption|]. rewrite <- H4.
  now apply resolve_entry_ext.
Qed.

(** The entry that a run of the rule leaves for a network type other than
    [ingress] is the one [resolve_entry] builds from the subnet of the entry
    that was there. *)
Lemma rule_entry rule_data self self' net_type e :
  ip_alloc_offset rule_data self = (Ok tt, self') ->
  net_type <> "ingress" ->
  dict_get net_type (vlan_network_data (data self')) = Some e ->
  exists off old sv subnet,
    collect_rules rule_data = Ok off /\
    dict_get net_type (vlan_network_data (data self)) = Some old /\
    dict_get "subnet" old = Some sv /\
    IPNetwork_of sv = Some subnet /\
    resolve off net_type subnet self = Ok e.
Proof.
  intros Hrun Hne Hget. apply ip_alloc_offset_Ok in Hrun.
  destruct Hrun as (off & _ & _ & _ & _ & _ & _ & Hc & _ & _ & _ & _ & _ &
                    _ & _ & _ & _ & _ & _ & _ & Hall).
  destruct (Hall _ _ Hne Hget) as (old & sv & net & H1 & H2 & H3 & H4).
  exists off, old, sv, net. auto.
Qed.

(** C1: for a network type other than [ingress] and [pxe], the entry that the
    rule leaves has [gateway = ips[offsets.gateway]], [reserved_start =
    ips[1]], [reserved_end = ips[ip_offset]], [static_start = ips[ip_offset +
    1]] and [static_end = ips[offsets.static_ip_end]], where [ips] is the
    address list of the subnet of the entry and [ip_offset] is [offsets.oob]
    for the type [oob] and [offsets.default] for every other type. *)
Theorem ip_alloc_offset_general_fields rule_data self self' net_type e :
  ip_alloc_offset rule_data self = (Ok tt, self') ->
  net_type <> "ingress" ->
  net_type <> "pxe" ->
  dict_get net_type (vlan_network_data (data self')) = Some e ->
  exists old sv subnet gw ip_offset se a_gw a_rs a_re a_ss a_se,
    let ips := ip_list subnet in
    dict_get net_type (vlan_network_data (data self)) = Some old /\
    dict_get "subnet" old = Some sv /\
    IPNetwork_of sv = Some subnet /\
    offset rule_data "gateway" gw /\
    offset rule_data (if String.eqb net_type "oob" then "oob" else "default")
      ip_offset /\
    offset rule_data "static_ip_end" se /\
    py_index ips gw = Ok a_gw /\
    py_index ips 1 = Ok a_rs /\
    py_index ips ip_offset = Ok a_re /\
    py_index ips (ip_offset + 1) = Ok a_ss /\
    py_index ips se = Ok a_se /\
    dict_get "gateway" e = Some (str a_gw) /\
    dict_get "reserved_start" e = Some (str a_rs) /\
    dict_get "reserved_end" e = Some (str a_re) /\
    dict_get "static_start" e = Some (str a_ss) /\
    dict_get "static_end" e = Some (str a_se).
Proof.
  intros Hrun Hne Hpxe Hget.
  destruct (rule_entry _ _ _ _ _ Hrun Hne Hget)
    as (off & old & sv & subnet & Hc & Hold & Hsv & Hnet & Hres).
  apply resolve_entry_Ok in Hres.
  destruct Hres as (gw & io & se & a_gw & a_rs & a_re & a_ss & a_se & a_end &
                    dhcp & vlan & Hgw & Hio & Hse & H1 & H2 & H3 & H4 & H5 &
                    Hdhcp & Hvlan & He).
  apply String.eqb_neq in Hpxe. rewrite Hpxe in Hdhcp.
  destruct Hdhcp as [-> ->].
  pose proof (ip_offset_of_offset _ _ _ _ Hc Hio) as Hio'.
  pose proof (collect_rules_Ok _ _ Hc) as (_ & _ & Hg & _ & Hs & _).
  exists old, sv, subnet, gw, io, se, a_gw, a_rs, a_re, a_ss, a_se.
  unfold offset. rewrite Hg, Hs, Hgw, Hse.
  repeat (split; [assumption || reflexivity|]).
  subst e. repeat split; reflexivity.
Qed.

(** C3, as amended: for a network type other than [ingress] and [pxe] and
    offsets with [0 < ip_offset < static_ip_end < N - 1], the addresses of
    [reserved_start], [reserved_end], [static_start] and [static_end] lie in
    the subnet and are in order, [reserved_start <= reserved_end <
    static_start <= static_end]; the first step is strict when [1 <
    ip_offset] and the last when [ip_offset + 1 < static_ip_end]. *)
Theorem ip_alloc_offset_ranges_ordered rule_data self self' net_type e :
  ip_alloc_offset rule_data self = (Ok tt, self') ->
  net_type <> "ingress" ->
  net_type <> "pxe" ->
  dict_get net_type (vlan_network_data (data self')) = Some e ->
  exists old sv subnet ip_offset se a_rs a_re a_ss a_se,
    let N := Z.of_nat (length (ip_list subnet)) in
    let within a :=
      addr_version a = net_version subnet /\
      first subnet <= addr_value a <= last subnet in
    dict_get net_type (vlan_network_data (data self)) = Some old /\
    dict_get "subnet" old = Some sv /\
    IPNetwork_of sv = Some subnet /\
    offset rule_data (ip_offset_name net_type) ip_offset /\
    offset rule_data "static_ip_end" se /\
    dict_get "reserved_start" e = Some (str a_rs) /\
    dict_get "reserved_end" e = Some (str a_re) /\
    dict_get "static_start" e = Some (str a_ss) /\
    dict_get "static_end" e = Some (str a_se) /\
    (0 < ip_offset -> ip_offset < se -> se < N - 1 ->
     within a_rs /\ within a_re /\ within a_ss /\ within a_se /\
     addr_value a_rs <= addr_value a_re /\
     addr_value a_re < addr_value a_ss /\
     addr_value a_ss <= addr_value a_se /\
     (1 < ip_offset -> addr_value a_rs < addr_value a_re) /\
     (ip_offset + 1 < se -> addr_value a_ss < addr_value a_se)).
Proof.
  intros Hrun Hne Hpxe Hget.
  destruct (rule_entry _ _ _ _ _ Hrun Hne Hget)
    as (off & old & sv & subnet & Hc & Hold & Hsv & Hnet & Hres).
  apply resolve_entry_Ok in Hres.
  destruct Hres as (gw & io & se & a_gw & a_rs & a_re & a_ss & a_se & a_end &
                    dhcp & vlan & Hgw & Hio & Hse & H1 & H2 & H3 & H4 & H5 &
                    Hdhcp & Hvlan & He).
  apply String.eqb_neq in Hpxe. rewrite Hpxe in Hdhcp.
  destruct Hdhcp as [-> ->].
  pose proof (ip_offset_of_offset _ _ _ _ Hc Hio) as Hio'.
  pose proof (collect_rules_Ok _ _ Hc) as (_ & _ & _ & _ & Hs & _).
  exists old, sv, subnet, io, se, a_rs, a_re, a_ss, a_se.
  intros N within. unfold offset. rewrite Hs, Hse.
  repeat (split; [assumption || reflexivity|]).
  subst e. do 4 (split; [reflexivity|]).
  intros Hpos Hlt Hend.
  apply ip_list_index in H2, H3, H4, H5. fold N in H2, H3, H4, H5.
  unfold py_position in *.
  assert (HN : N = last subnet - first subnet + 1).
  { unfold N. rewrite ip_list_length.
    assert (0 < Z.of_nat (length (ip_list subnet))) by (fold N; lia).
    rewrite ip_list_length in *. lia. }
  replace (1 <? 0) with false in H2 by reflexivity.
  replace (io <? 0) with false in H3 by (symmetry; apply Z.ltb_ge; lia).
  replace (io + 1 <? 0) with false in H4 by (symmetry; apply Z.ltb_ge; lia).
  replace (se <? 0) with false in H5 by (symmetry; apply Z.ltb_ge; lia).
  unfold within. intuition lia.
Qed.

(** C4: for the network type [pxe], with [mid = N // 2], the entry has
    [static_end = ips[mid - 1]], [dhcp_start = ips[mid]] and [dhcp_end =
    ips[offsets.dhcp_ip_end]]; [dhcp_start] is the address next after
    [static_end] in the list, whatever [static_ip_end] is; the other fields
    are those of the general case. *)
Theorem ip_alloc_offset_pxe_fields rule_data self self' e :
  ip_alloc_offset rule_data self = (Ok tt, self') ->
  dict_get "pxe" (vlan_network_data (data self')) = Some e ->
  exists old sv subnet gw ip_offset de a_gw a_rs a_re a_ss a_end a_m a_de p,
    let ips := ip_list subnet in
    let mid := Z.of_nat (length ips) / 2 in
    dict_get "pxe" (vlan_network_data (data self)) = Some old /\
    dict_get "subnet" old = Some sv /\
    IPNetwork_of sv = Some subnet /\
    offset rule_data "gateway" gw /\
    offset rule_data "default" ip_offset /\
    offset rule_data "dhcp_ip_end" de /\
    py_index ips (mid - 1) = Ok a_end /\
    py_index ips mid = Ok a_m /\
    py_index ips de = Ok a_de /\
    dict_get "static_end" e = Some (str a_end) /\
    dict_get "dhcp_start" e = Some (str a_m) /\
    dict_get "dhcp_end" e = Some (str a_de) /\
    nth_error ips p = Some a_end /\
    nth_error ips (S p) = Some a_m /\
    addr_value a_m - addr_value a_end = 1 /\
    py_index ips gw = Ok a_gw /\
    py_index ips 1 = Ok a_rs /\
    py_index ips ip_offset = Ok a_re /\
    py_index ips (ip_offset + 1) = Ok a_ss /\
    dict_get "network" e = Some (VStr (str_net subnet)) /\
    dict_get "gateway" e = Some (str a_gw) /\
    dict_get "reserved_start" e = Some (str a_rs) /\
    dict_get "reserved_end" e = Some (str a_re) /\
    dict_get "static_start" e = Some (str a_ss) /\
    dict_get "vlan" e = dict_get "vlan" old /\
    dict_get "routes" e = Some (VList []).
Proof.
  intros Hrun Hget.
  assert (Hne : "pxe" <> "ingress") by discriminate.
  destruct (rule_entry _ _ _ _ _ Hrun Hne Hget)
    as (off & old & sv & subnet & Hc & Hold & Hsv & Hnet & Hres).
  apply resolve_entry_Ok in Hres.
  destruct Hres as (gw & io & se & a_gw & a_rs & a_re & a_ss & a_se & a_end &
                    dhcp & vlan & Hgw & Hio & Hse & H1 & H2 & H3 & H4 & H5 &
                    Hdhcp & Hvlan & He).
  simpl in Hdhcp, Hvlan.
  destruct Hdhcp as (de & a_m & a_de & Hde & Hend & Hmid & Hdend & ->).
  destruct Hvlan as (old' & v & Hold' & Hv & ->).
  rewrite Hold in Hold'. inversion Hold'; subst old'; clear Hold'.
  pose proof (ip_offset_of_offset _ _ _ _ Hc Hio) as Hio'.
  pose proof (collect_rules_Ok _ _ Hc) as (_ & _ & Hg & _ & _ & Hd).
  set (N := Z.of_nat (length (ip_list subnet))) in *.
  assert (HN : 2 <= N).
  { apply py_index_Ok in H2. fold N in H2. unfold py_position in H2.
    simpl in H2. lia. }
  assert (Hm : 1 <= N / 2 < N).
  { split; [apply Z.div_le_lower_bound; lia | apply Z.div_lt; lia]. }
  exists old, sv, subnet, gw, io, de, a_gw, a_rs, a_re, a_ss, a_end, a_m, a_de,
    (Z.to_nat (N / 2 - 1)).
  unfold offset. rewrite Hg, Hd, Hgw, Hde. cbv zeta. fold N.
  repeat (split; [assumption || reflexivity|]).
  subst e. do 3 (split; [reflexivity|]).
  pose proof Hend as Hend'. pose proof Hmid as Hmid'.
  apply py_index_Ok in Hend', Hmid'. fold N in Hend', Hmid'.
  unfold py_position in Hend', Hmid'.
  replace (N / 2 - 1 <? 0) with false in Hend' by (symmetry; apply Z.ltb_ge; lia).
  replace (N / 2 <? 0) with false in Hmid' by (symmetry; apply Z.ltb_ge; lia).
  split; [tauto|]. split.
  { replace (S (Z.to_nat (N / 2 - 1))) with (Z.to_nat (N / 2)) by lia. tauto. }
  split.
  { apply ip_list_index in Hend, Hmid. fold N in Hend, Hmid.
    unfold py_position in Hend, Hmid.
    replace (N / 2 - 1 <? 0) with false in Hend by (symmetry; apply Z.ltb_ge; lia).
    replace (N / 2 <? 0) with false in Hmid by (symmetry; apply Z.ltb_ge; lia).
    lia. }
  repeat (split; [assumption || reflexivity|]).
  simpl. rewrite Hv. split; reflexivity.
Qed.

(** C5: the rule leaves the ingress entry as it was; it sets
    [bgp.ingress_vip] to [ips[offsets.ingress_vip]], [ips] being the address
    list of the first element of the ingress network's [subnet], and
    [bgp.public_service_cidr] to that first element itself. *)
Theorem ip_alloc_offset_ingress_bgp rule_data self self' :
  ip_alloc_offset rule_data self = (Ok tt, self') ->
  exists ingress sv cidr subnet i vip,
    dict_get "ingress" (vlan_network_data (data self)) = Some ingress /\
    dict_get "subnet" ingress = Some sv /\
    subscript_zero sv = Ok cidr /\
    (forall l, sv = VList l -> head l = Some cidr) /\
    IPNetwork_of cidr = Some subnet /\
    offset rule_data "ingress_vip" i /\
    py_index (ip_list subnet) i = Ok vip /\
    dict_get "ingress_vip" (bgp (data self')) = Some (str vip) /\
    dict_get "public_service_cidr" (bgp (data self')) = Some cidr /\
    dict_get "ingress" (vlan_network_data (data self')) = Some ingress.
Proof.
  intros Hrun. apply ip_alloc_offset_Ok in Hrun.
  destruct Hrun as (off & ingress & sv & s0 & subnet & i & vip & Hc & Hin & Hsv &
                    Hs0 & Hnet & Hi & Hvip & Hbgp & _ & _ & _ & _ & Hin' & _).
  pose proof (collect_rules_Ok _ _ Hc) as (_ & _ & _ & Hv & _ & _).
  exists ingress, sv, s0, subnet, i, vip.
  unfold offset. rewrite Hv, Hi, Hbgp.
  repeat (split; [assumption || reflexivity|]).
  split.
  { intros l ->. simpl in Hs0. apply py_index_Ok in Hs0.
    destruct Hs0 as [_ Hs0]. destruct l; simpl in *; congruence. }
  repeat (split; [assumption || reflexivity|]).
  split; [|split; [|assumption]].
  - rewrite dict_get_set_ne by discriminate. apply dict_get_set_eq.
  - apply dict_get_set_eq.
Qed.

(** C7: in the entry that the rule leaves for a network type, [routes] is
    [["0.0.0.0/0"]] for the type [oam] and the empty list for every other
    type; so it is [["0.0.0.0/0"]] if and only if the type is [oam]. *)
Theorem ip_alloc_offset_routes rule_data self self' net_type e :
  ip_alloc_offset rule_data self = (Ok tt, self') ->
  net_type <> "ingress" ->
  dict_get net_type (vlan_network_data (data self')) = Some e ->
  (net_type = "oam" -> dict_get "routes" e = Some (VList [VStr "0.0.0.0/0"])) /\
  (net_type <> "oam" -> dict_get "routes" e = Some (VList [])) /\
  (dict_get "routes" e = Some (VList [VStr "0.0.0.0/0"]) <-> net_type = "oam").
Proof.
  intros Hrun Hne Hget.
  destruct (rule_entry _ _ _ _ _ Hrun Hne Hget)
    as (off & old & sv & subnet & Hc & Hold & Hsv & Hnet & Hres).
  apply resolve_entry_Ok in Hres.
  destruct Hres as (gw & io & se & a_gw & a_rs & a_re & a_ss & a_se & a_end &
                    dhcp & vlan & _ & _ & _ & _ & _ & _ & _ & _ &
                    Hdhcp & Hvlan & He).
  assert (Hroutes : dict_get "routes" e = Some (VList (routes_of net_type))).
  { destruct (String.eqb net_type "pxe");
      [destruct Hdhcp as (? & ? & ? & _ & _ & _ & _ & ->) | destruct Hdhcp as [_ ->]];
      (destruct (String.eqb net_type "oob");
        [subst vlan | destruct Hvlan as (? & ? & _ & _ & ->)]);
      subst e; reflexivity. }
  rewrite Hroutes. unfold routes_of.
  destruct (String.eqb net_type "oam") eqn:E.
  - apply String.eqb_eq in E. subst. repeat split; congruence.
  - apply String.eqb_neq in E. repeat split; congruence.
Qed.

(** C8: the entry that the rule leaves for the type [oob] has no [vlan]
    field; the entry it leaves for every other type has the [vlan] of the
    entry that was there. *)
Theorem ip_alloc_offset_vlan rule_data self self' net_type e :
  ip_alloc_offset rule_data self = (Ok tt, self') ->
  net_type <> "ingress" ->
  dict_get net_type (vlan_network_data (data self')) = Some e ->
  (net_type = "oob" -> dict_get "vlan" e = None) /\
  (net_type <> "oob" ->
   exists old v,
     dict_get net_type (vlan_network_data (data self)) = Some old /\
     dict_get "vlan" old = Some v /\
     dict_get "vlan" e = Some v).
Proof.
  intros Hrun Hne Hget.
  destruct (rule_entry _ _ _ _ _ Hrun Hne Hget)
    as (off & old & sv & subnet & Hc & Hold & Hsv & Hnet & Hres).
  apply resolve_entry_Ok in Hres.
  destruct Hres as (gw & io & se & a_gw & a_rs & a_re & a_ss & a_se & a_end &
                    dhcp & vlan & _ & _ & _ & _ & _ & _ & _ & _ &
                    Hdhcp & Hvlan & He).
  split.
  - intros ->. simpl in Hdhcp, Hvlan. destruct Hdhcp as [_ ->].
    subst. reflexivity.
  - intros Hoob. apply String.eqb_neq in Hoob. rewrite Hoob in Hvlan.
    destruct Hvlan as (old' & v & Hold' & Hv & ->).
    exists old', v. repeat split; auto.
    destruct (String.eqb net_type "pxe");
      [destruct Hdhcp as (? & ? & ? & _ & _ & _ & _ & ->) | destruct Hdhcp as [_ ->]];
      subst e; reflexivity.
Qed.

(** C10: the entry that the rule leaves for a network type other than
    [ingress] has exactly the fields that the rule writes: [network],
    [gateway], [reserved_start], [reserved_end], [static_start],
    [static_end] and [routes], with [dhcp_start] and [dhcp_end] for [pxe]
    and [vlan] for every type but [oob]; no other key of the entry that was
    there, [subnet] among them, is left. *)
Theorem ip_alloc_offset_entry_keys rule_data self self' net_type e :
  ip_alloc_offset rule_data self = (Ok tt, self') ->
  net_type <> "ingress" ->
  dict_get net_type (vlan_network_data (data self')) = Some e ->
  dict_keys e = resolved_keys net_type /\
  dict_get "subnet" e = None /\
  (forall k, ~ In k (resolved_keys net_type) -> dict_get k e = None).
Proof.
  intros Hrun Hne Hget.
  destruct (rule_entry _ _ _ _ _ Hrun Hne Hget)
    as (off & old & sv & subnet & Hc & Hold & Hsv & Hnet & Hres).
  apply resolve_entry_Ok in Hres.
  destruct Hres as (gw & io & se & a_gw & a_rs & a_re & a_ss & a_se & a_end &
                    dhcp & vlan & _ & _ & _ & _ & _ & _ & _ & _ &
                    Hdhcp & Hvlan & He).
  split; [|split].
  - unfold resolved_keys.
    destruct (String.eqb net_type "pxe");
      [destruct Hdhcp as (? & ? & ? & _ & _ & _ & _ & ->) | destruct Hdhcp as [_ ->]];
      (destruct (String.eqb net_type "oob");
        [subst vlan | destruct Hvlan as (? & ? & _ & _ & ->)]);
      subst e; reflexivity.
  - destruct (String.eqb net_type "pxe");
      [destruct Hdhcp as (? & ? & ? & _ & _ & _ & _ & ->) | destruct Hdhcp as [_ ->]];
      (destruct (String.eqb net_type "oob");
        [subst vlan | destruct Hvlan as (? & ? & _ & _ & ->)]);
      subst e; reflexivity.
  - assert (Hkeys : dict_keys e = resolved_keys net_type).
    { unfold resolved_keys.
      destruct (String.eqb net_type "pxe");
        [destruct Hdhcp as (? & ? & ? & _ & _ & _ & _ & ->) | destruct Hdhcp as [_ ->]];
        (destruct (String.eqb net_type "oob");
          [subst vlan | destruct Hvlan as (? & ? & _ & _ & ->)]);
        subst e; reflexivity. }
    intros k Hk. destruct (dict_get k e) eqn:E; [|reflexivity].
    exfalso. apply Hk. rewrite <- Hkeys. apply dict_get_In_keys. eauto.
Qed.

End Properties.

(** ** The genesis lookup *)

Lemma find_last_app {A : Type} (p : A -> bool) (l : list A) (x : A) :
  find_last p (l ++ [x]) = if p x then Some x else find_last p l.
Proof.
  induction l as [|y l IH]; simpl.
  - reflexivity.
  - rewrite IH. destruct (p x); [reflexivity|].
    destruct (find_last p l); reflexivity.
Qed.

Lemma type_of_insert_name o h h' v :
  type_of (<[h := dict_set "name" v (default [] (o !! h))]> o) h' = type_of o h'.
Proof.
  unfold type_of. destruct (decide (h = h')) as [->|Hne].
  - rewrite lookup_insert_eq. simpl. now rewrite dict_get_set_ne by discriminate.
  - now rewrite lookup_insert_ne.
Qed.

Lemma visit_type_of st r h :
  type_of (snd (visit st r)) h = type_of (snd st) h.
Proof.
  destruct st as [g o], r as [host h0]. simpl.
  destruct (is_genesis o h0); simpl; [apply type_of_insert_name | reflexivity].
Qed.

Lemma visit_all_type_of refs st h :
  type_of (snd (visit_all refs st)) h = type_of (snd st) h.
Proof.
  revert st. induction refs as [|r refs IH]; intros st; simpl; [reflexivity|].
  unfold visit_all in IH. now rewrite IH, visit_type_of.
Qed.

Lemma visit_all_is_genesis refs st h :
  is_genesis (snd (visit_all refs st)) h = is_genesis (snd st) h.
Proof. unfold is_genesis. now rewrite visit_all_type_of. Qed.

Lemma visit_all_app refs r st :
  visit_all (refs ++ [r]) st = visit (visit_all refs st) r.
Proof. unfold visit_all. now rewrite fold_left_app. Qed.

(** After the hosts [refs] have been visited, [genesis_node] refers to the
    mapping of the last genesis host among them, and that mapping is the one
    it was with [name] set to the key of that host; a mapping whose type is
    not [genesis] is as it was. *)
Lemma visit_all_spec refs g o :
  let st := visit_all refs (g, o) in
  match find_last (fun r => is_genesis o (snd r)) refs with
  | Some (host, h) =>
      fst st = Some h /\
      default [] (snd st !! h) = dict_set "name" (VStr host) (default [] (o !! h))
  | None => st = (g, o)
  end /\
  (forall h, is_genesis o h = false -> snd st !! h = o !! h) /\
  (forall h, exists d, default [] (snd st !! h) = d /\
     (d = default [] (o !! h) \/
      exists host, In (host, h) refs /\ is_genesis o h = true /\
                   d = dict_set "name" (VStr host) (default [] (o !! h)))).
Proof.
  induction refs as [|r refs IH] using rev_ind; simpl.
  - repeat split; auto. intros h. eauto.
  - rewrite visit_all_app, find_last_app.
    destruct IH as (IH1 & IH2 & IH3).
    pose proof (visit_all_is_genesis refs (g, o)) as Hgen. simpl in Hgen.
    destruct (visit_all refs (g, o)) as [g1 o1] eqn:Est. simpl in *.
    destruct r as [host h]. simpl. rewrite Hgen.
    destruct (is_genesis o h) eqn:Eh; simpl.
    + split; [|split].
      * split; [reflexivity|]. rewrite lookup_insert_eq. simpl.
        destruct (IH3 h) as (d & Hd & [->|(host' & _ & _ & ->)]); rewrite Hd.
        -- reflexivity.
        -- apply dict_set_set.
      * intros h' Hh'. rewrite lookup_insert_ne by congruence. auto.
      * intros h'. destruct (decide (h = h')) as [<-|Hne].
        -- rewrite lookup_insert_eq. simpl. eexists; split; [reflexivity|].
           right. exists host. split; [apply in_or_app; simpl; auto|].
           split; [assumption|].
           destruct (IH3 h) as (d & Hd & [->|(host' & _ & _ & ->)]); rewrite Hd.
           ++ reflexivity.
           ++ apply dict_set_set.
        -- rewrite lookup_insert_ne by assumption.
           destruct (IH3 h') as (d & Hd & [->|(host' & Hin & Hg' & ->)]);
             eexists; (split; [eassumption|]); [left; reflexivity|].
           right. exists host'. split; [apply in_or_app; auto | auto].
    + split; [|split]; auto.
      intros h'.
      destruct (IH3 h') as (d & Hd & [->|(host' & Hin & Hg' & ->)]);
        eexists; (split; [eassumption|]); [left; reflexivity|].
      right. exists host'. split; [apply in_or_app; auto | auto].
Qed.

Lemma with_genesis_state self : with_genesis (genesis_state self) self = self.
Proof. destruct self as [[] ?]. reflexivity. Qed.

Lemma with_genesis_twice st st' self :
  with_genesis st (with_genesis st' self) = with_genesis st self.
Proof. reflexivity. Qed.

Lemma genesis_state_with_genesis st self :
  genesis_state (with_genesis st self) = st.
Proof. destruct st. reflexivity. Qed.

(** One turn of the loop over the hosts of a rack is a visit. *)
Lemma rack_hosts_loop_cons rack_hosts host hosts self h ty :
  dict_get host rack_hosts = Some h ->
  type_of (objects (data self)) h = Some ty ->
  rack_hosts_loop rack_hosts (host :: hosts) self =
  rack_hosts_loop rack_hosts hosts
    (with_genesis (visit (genesis_state self) (host, h)) self).
Proof.
  intros Hh Hty. cbn [rack_hosts_loop].
  unfold mbind, method_bind, lift, get_self, subscript, deref.
  rewrite Hh. unfold type_of in Hty. rewrite Hty.
  unfold visit, genesis_state, is_genesis, type_of. rewrite Hty.
  destruct (value_eq_str ty "genesis").
  - reflexivity.
  - unfold mret, method_ret. fold (genesis_state self).
    now rewrite with_genesis_state.
Qed.

Lemma rack_hosts_loop_visit rack_hosts hosts self :
  (forall host, In host hosts -> In host (dict_keys rack_hosts)) ->
  (forall host h, In (host, h) (rack_host_refs rack_hosts hosts) ->
                  type_of (objects (data self)) h <> None) ->
  rack_hosts_loop rack_hosts hosts self =
  (Ok tt, with_genesis (visit_all (rack_host_refs rack_hosts hosts)
                                  (genesis_state self)) self).
Proof.
  revert self. induction hosts as [|host hosts IH]; intros self Hkeys Hty.
  - simpl. now rewrite with_genesis_state.
  - assert (Hin : In host (dict_keys rack_hosts)) by (apply Hkeys; simpl; auto).
    apply dict_get_In_keys in Hin. destruct Hin as [h Hh].
    unfold rack_host_refs in *. cbn [flat_map] in *. rewrite Hh in *.
    fold (rack_host_refs rack_hosts hosts) in *. simpl app in *.
    destruct (type_of (objects (data self)) h) as [ty|] eqn:Ety;
      [|exfalso; apply (Hty host h); simpl; auto].
    rewrite (rack_hosts_loop_cons _ _ _ _ _ _ Hh Ety).
    rewrite IH.
    + rewrite genesis_state_with_genesis, with_genesis_twice. reflexivity.
    + intros ? ?. apply Hkeys. simpl. auto.
    + intros host' h' Hin'.
      change (objects (data (with_genesis (visit (genesis_state self) (host, h)) self)))
        with (snd (visit (genesis_state self) (host, h))).
      rewrite visit_type_of. apply (Hty host'). simpl. auto.
Qed.

Lemma racks_loop_visit racks self :
  (forall rack, In rack racks -> In rack (dict_keys (baremetal (data self)))) ->
  (forall host h, In (host, h) (host_refs (baremetal (data self)) racks) ->
                  type_of (objects (data self)) h <> None) ->
  racks_loop racks self =
  (Ok tt, with_genesis (visit_all (host_refs (baremetal (data self)) racks)
                                  (genesis_state self)) self).
Proof.
  revert self. induction racks as [|rack racks IH]; intros self Hkeys Hty.
  - simpl. now rewrite with_genesis_state.
  - assert (Hin : In rack (dict_keys (baremetal (data self))))
      by (apply Hkeys; simpl; auto).
    apply dict_get_In_keys in Hin. destruct Hin as [rack_hosts Hr].
    unfold host_refs in *. cbn [flat_map] in *. rewrite Hr in *.
    fold (host_refs (baremetal (data self)) racks) in *.
    cbn [racks_loop].
    unfold mbind, method_bind, lift, get_self, subscript. rewrite Hr.
    rewrite rack_hosts_loop_visit.
    + rewrite IH.
      * rewrite genesis_state_with_genesis, with_genesis_twice.
        unfold visit_all. rewrite fold_left_app. reflexivity.
      * intros ? ?. apply Hkeys. simpl. auto.
      * intros host h Hin'. simpl.
        change (objects (data self)) with (snd (genesis_state self)).
        rewrite visit_all_type_of. apply (Hty host). apply in_or_app. auto.
    + auto.
    + intros host h Hin'. apply (Hty host). apply in_or_app. auto.
Qed.

Lemma find_last_Some_In {A : Type} (p : A -> bool) (l : list A) (x : A) :
  find_last p l = Some x -> In x l /\ p x = true.
Proof.
  induction l as [|y l IH]; simpl; [discriminate|].
  destruct (find_last p l) as [z|].
  - intros H. inversion H; subst. destruct IH; auto.
  - destruct (p y) eqn:E; [|discriminate].
    intros H. inversion H; subst. auto.
Qed.

Lemma find_last_None {A : Type} (p : A -> bool) (l : list A) :
  (forall x, In x l -> p x = false) -> find_last p l = None.
Proof.
  induction l as [|y l IH]; simpl; intros H; [reflexivity|].
  rewrite IH by auto. now rewrite (H y) by auto.
Qed.

Lemma find_last_split {A : Type} (p : A -> bool) (before after : list A) (x : A) :
  p x = true ->
  (forall y, In y after -> p y = false) ->
  find_last p (before ++ x :: after) = Some x.
Proof.
  intros Hx Hafter. induction before as [|y before IH]; simpl.
  - now rewrite (find_last_None p after Hafter), Hx.
  - now rewrite IH.
Qed.

(** The lookup on a freshly loaded document whose hosts all have a [type]:
    it returns, and its effect is that of visiting the hosts in order. *)
Lemma get_genesis_node_details_visit d :
  (forall host h, In (host, h) (all_hosts d) -> type_of (objects d) h <> None) ->
  _get_genesis_node_details (load_extracted_data_from_data_source d) =
  (Ok tt, with_genesis (visit_all (all_hosts d) (None, objects d))
                       (load_extracted_data_from_data_source d)).
Proof.
  intros Hty. unfold _get_genesis_node_details.
  unfold mbind, method_bind, get_self.
  rewrite racks_loop_visit; [reflexivity | auto | exact Hty].
Qed.

(** C6: on a document whose hosts all have a [type], the lookup returns; its
    result is the last host, in the order of iteration, whose type is
    [genesis], with [name] equal to the key of that host; when no host has
    the type [genesis] the result is absent.  In short, the result is
    [last_genesis]. *)
Theorem genesis_lookup_last_match d :
  (forall host h, In (host, h) (all_hosts d) -> type_of (objects d) h <> None) ->
  exists self',
    _get_genesis_node_details (load_extracted_data_from_data_source d) =
      (Ok tt, self') /\
    (forall before host h after,
       all_hosts d = (before ++ (host, h) :: after)%list ->
       is_genesis (objects d) h = true ->
       (forall r, In r after -> is_genesis (objects d) (snd r) = false) ->
       genesis_node self' = Some h /\
       dict_get "name" (deref self' h) = Some (VStr host)) /\
    ((forall r, In r (all_hosts d) -> is_genesis (objects d) (snd r) = false) ->
     genesis_node self' = None) /\
    genesis_node self' = option_map snd (last_genesis d).
Proof.
  intros Hty. eexists. split; [apply get_genesis_node_details_visit, Hty|].
  pose proof (visit_all_spec (all_hosts d) None (objects d)) as (Hlast & _ & _).
  split; [|split].
  3: { unfold last_genesis. simpl.
       destruct (find_last (fun r => is_genesis (objects d) (snd r)) (all_hosts d))
         as [[host h]|]; simpl; [tauto | now rewrite Hlast]. }
  - intros before host h after Hsplit Hgen Hafter.
    assert (Hfind : find_last (fun r => is_genesis (objects d) (snd r))
                      (all_hosts d) = Some (host, h))
      by (rewrite Hsplit; apply find_last_split; auto).
    rewrite Hfind in Hlast.
    destruct Hlast as [Hg Hname]. split; [exact Hg|].
    unfold deref. simpl. rewrite Hname. apply dict_get_set_eq.
  - intros Hnone. rewrite find_last_None in Hlast by exact Hnone.
    simpl. now rewrite Hlast.
Qed.

(** C2, as amended: the genesis node that the lookup records is the mapping
    of the matching host itself, not a copy of it: [genesis_node] refers to
    the object that the baremetal block holds for that host, so the [name]
    written through it is in the host's entry too; the other fields of that
    entry, and every mapping whose type is not [genesis], are as they were. *)
Theorem genesis_node_is_host_entry d :
  (forall host h, In (host, h) (all_hosts d) -> type_of (objects d) h <> None) ->
  exists self',
    _get_genesis_node_details (load_extracted_data_from_data_source d) =
      (Ok tt, self') /\
    baremetal (data self') = baremetal d /\
    (forall h, genesis_node self' = Some h ->
       exists host,
         In (host, h) (all_hosts (data self')) /\
         deref self' h =
           dict_set "name" (VStr host)
             (deref (load_extracted_data_from_data_source d) h)) /\
    (forall h, is_genesis (objects d) h = false ->
       objects (data self') !! h = objects d !! h).
Proof.
  intros Hty. eexists. split; [apply get_genesis_node_details_visit, Hty|].
  pose proof (visit_all_spec (all_hosts d) None (objects d)) as (Hlast & Hother & _).
  split; [reflexivity|]. split.
  - intros h Hg. simpl in Hg.
    destruct (find_last (fun r => is_genesis (objects d) (snd r)) (all_hosts d))
      as [[host h']|] eqn:Efind.
    + destruct Hlast as [Hfst Hname]. rewrite Hfst in Hg. inversion Hg; subst h'.
      exists host. split.
      * apply find_last_Some_In in Efind. tauto.
      * exact Hname.
    + simpl in Hlast. rewrite Hlast in Hg. discriminate.
  - exact Hother.
Qed.

(** ** The dispatch of the rules *)

Section Dispatch.

Variable IPNetwork_of : Value -> option IPNetwork.
Variable str_addr : IPAddress -> string.
Variable str_net : IPNetwork -> string.

Abbreviation getattr := (getattr_rule IPNetwork_of str_addr str_net).
Abbreviation apply_rule := (apply_design_rule IPNetwork_of str_addr str_net).
Abbreviation apply_loop := (apply_design_rules_loop IPNetwork_of str_addr str_net).
Abbreviation apply_rules := (_apply_design_rules IPNetwork_of str_addr str_net).
Abbreviation generate := (generate_intermediary_yaml IPNetwork_of str_addr str_net).






End Dispatch.

(** ** The engine on the example documents *)

(** The example of the specification: [192.168.10.0/24] as [storage]. *)
Example example_storage :
  fst example_run = Ok tt /\
  example_entry "storage" =
    [("network", VStr "192.168.10.0/24"); ("gateway", VStr "192.168.10.1");
     ("reserved_start", VStr "192.168.10.1"); ("reserved_end", VStr "192.168.10.50");
     ("static_start", VStr "192.168.10.51"); ("static_end", VStr "192.168.10.200");
     ("vlan", VStr "43"); ("routes", VList [])].
Proof. split; vm_compute; reflexivity. Qed.

Example example_pxe :
  example_entry "pxe" =
    [("network", VStr "10.0.1.0/24"); ("gateway", VStr "10.0.1.1");
     ("reserved_start", VStr "10.0.1.1"); ("reserved_end", VStr "10.0.1.50");
     ("dhcp_start", VStr "10.0.1.128"); ("dhcp_end", VStr "10.0.1.220");
     ("static_start", VStr "10.0.1.51"); ("static_end", VStr "10.0.1.127");
     ("vlan", VStr "41"); ("routes", VList [])].
Proof. vm_compute. reflexivity. Qed.

Example example_bgp :
  bgp (data (snd example_run)) =
    [("asnumber", VInt 64671); ("ingress_vip", VStr "172.16.0.5");
     ("public_service_cidr", VStr "172.16.0.0/24")].
Proof. vm_compute. reflexivity. Qed.

Lemma example_run_Ok : example_run = (Ok tt, snd example_run).
Proof.
  assert (H : fst example_run = Ok tt) by (vm_compute; reflexivity).
  destruct example_run. simpl in *. now subst.
Defined.

(** ** The theorems at the example documents *)

Lemma ip_alloc_offset_general_fields_example :
  example_run = (Ok tt, snd example_run) /\
  dict_get "storage" (vlan_network_data (data (snd example_run))) =
    Some (example_entry "storage") /\
  exists a_gw a_rs a_re a_ss a_se,
    dict_get "gateway" (example_entry "storage") = Some (VStr (IPv4Text.str_addr a_gw)) /\
    dict_get "reserved_start" (example_entry "storage") = Some (VStr (IPv4Text.str_addr a_rs)) /\
    dict_get "reserved_end" (example_entry "storage") = Some (VStr (IPv4Text.str_addr a_re)) /\
    dict_get "static_start" (example_entry "storage") = Some (VStr (IPv4Text.str_addr a_ss)) /\
    dict_get "static_end" (example_entry "storage") = Some (VStr (IPv4Text.str_addr a_se)).
Proof.
  split; [exact example_run_Ok|]. split; [vm_compute; reflexivity|].
  destruct (ip_alloc_offset_general_fields IPv4Text.IPNetwork_of IPv4Text.str_addr
              IPv4Text.str_net example_offsets example_self (snd example_run)
              "storage" (example_entry "storage"))
    as (old & sv & subnet & gw & io & se & a_gw & a_rs & a_re & a_ss & a_se & H).
  - exact example_run_Ok.
  - discriminate.
  - discriminate.
  - vm_compute; reflexivity.
  - exists a_gw, a_rs, a_re, a_ss, a_se. cbv zeta in H. tauto.
Defined.

Lemma ip_alloc_offset_ranges_ordered_example :
  example_run = (Ok tt, snd example_run) /\
  dict_get "storage" (vlan_network_data (data (snd example_run))) =
    Some (example_entry "storage") /\
  exists a_rs a_re a_ss a_se,
    dict_get "reserved_start" (example_entry "storage") = Some (VStr (IPv4Text.str_addr a_rs)) /\
    dict_get "reserved_end" (example_entry "storage") = Some (VStr (IPv4Text.str_addr a_re)) /\
    dict_get "static_start" (example_entry "storage") = Some (VStr (IPv4Text.str_addr a_ss)) /\
    dict_get "static_end" (example_entry "storage") = Some (VStr (IPv4Text.str_addr a_se)) /\
    addr_value a_rs < addr_value a_re /\
    addr_value a_re < addr_value a_ss /\
    addr_value a_ss < addr_value a_se.
Proof.
  split; [exact example_run_Ok|]. split; [vm_compute; reflexivity|].
  destruct (ip_alloc_offset_ranges_ordered IPv4Text.IPNetwork_of IPv4Text.str_addr
              IPv4Text.str_net example_offsets example_self (snd example_run)
              "storage" (example_entry "storage"))
    as (old & sv & subnet & io & se & a_rs & a_re & a_ss & a_se & H).
  - exact example_run_Ok.
  - discriminate.
  - discriminate.
  - vm_compute; reflexivity.
  - cbv zeta in H.
    destruct H as (Hold & Hsv & Hnet & Hio & Hse & H1 & H2 & H3 & H4 & Horder).
    vm_compute in Hold. inversion Hold; subst old; clear Hold.
    vm_compute in Hsv. inversion Hsv; subst sv; clear Hsv.
    vm_compute in Hnet. inversion Hnet; subst subnet; clear Hnet.
    vm_compute in Hio. inversion Hio; subst io; clear Hio.
    vm_compute in Hse. inversion Hse; subst se; clear Hse.
    exists a_rs, a_re, a_ss, a_se. repeat (split; [assumption|]).
    assert (HN : Z.of_nat (length (ip_list (mkIPNetwork IPv4 3232238080 24))) = 256)
      by (vm_compute; reflexivity).
    rewrite HN in Horder.
    destruct Horder as (_ & _ & _ & _ & _ & Hb & _ & Ha & Hc); lia.
Defined.

Lemma ip_alloc_offset_pxe_fields_example :
  example_run = (Ok tt, snd example_run) /\
  dict_get "pxe" (vlan_network_data (data (snd example_run))) =
    Some (example_entry "pxe") /\
  exists a_end a_m a_de,
    dict_get "static_end" (example_entry "pxe") = Some (VStr (IPv4Text.str_addr a_end)) /\
    dict_get "dhcp_start" (example_entry "pxe") = Some (VStr (IPv4Text.str_addr a_m)) /\
    dict_get "dhcp_end" (example_entry "pxe") = Some (VStr (IPv4Text.str_addr a_de)) /\
    addr_value a_m - addr_value a_end = 1.
Proof.
  split; [exact example_run_Ok|]. split; [vm_compute; reflexivity|].
  destruct (ip_alloc_offset_pxe_fields IPv4Text.IPNetwork_of IPv4Text.str_addr
              IPv4Text.str_net example_offsets example_self (snd example_run)
              (example_entry "pxe"))
    as (old & sv & subnet & gw & io & de & a_gw & a_rs & a_re & a_ss & a_end &
        a_m & a_de & p & H).
  - exact example_run_Ok.
  - vm_compute; reflexivity.
  - exists a_end, a_m, a_de. cbv zeta in H. tauto.
Defined.

Lemma ip_alloc_offset_ingress_bgp_example :
  example_run = (Ok tt, snd example_run) /\
  exists vip,
    dict_get "ingress_vip" (bgp (data (snd example_run))) =
      Some (VStr (IPv4Text.str_addr vip)) /\
    dict_get "public_service_cidr" (bgp (data (snd example_run))) =
      Some (VStr "172.16.0.0/24").
Proof.
  split; [exact example_run_Ok|].
  destruct (ip_alloc_offset_ingress_bgp IPv4Text.IPNetwork_of IPv4Text.str_addr
              IPv4Text.str_net example_offsets example_self (snd example_run)
              example_run_Ok)
    as (ingress & sv & cidr & subnet & i & vip & Hin & Hsv & Hcidr & _ & _ & _ &
        _ & Hvip & Hpub & _).
  vm_compute in Hin. inversion Hin; subst ingress; clear Hin.
  vm_compute in Hsv. inversion Hsv; subst sv; clear Hsv.
  vm_compute in Hcidr. inversion Hcidr; subst cidr; clear Hcidr.
  exists vip. split; assumption.
Defined.

Lemma ip_alloc_offset_routes_example :
  example_run = (Ok tt, snd example_run) /\
  dict_get "oam" (vlan_network_data (data (snd example_run))) =
    Some (example_entry "oam") /\
  dict_get "routes" (example_entry "oam") = Some (VList [VStr "0.0.0.0/0"]).
Proof.
  split; [exact example_run_Ok|]. split; [vm_compute; reflexivity|].
  apply (ip_alloc_offset_routes IPv4Text.IPNetwork_of IPv4Text.str_addr
           IPv4Text.str_net example_offsets example_self (snd example_run)
           "oam" (example_entry "oam")).
  - exact example_run_Ok.
  - discriminate.
  - vm_compute; reflexivity.
  - reflexivity.
Defined.

Lemma ip_alloc_offset_vlan_example :
  example_run = (Ok tt, snd example_run) /\
  dict_get "oob" (vlan_network_data (data (snd example_run))) =
    Some (example_entry "oob") /\
  dict_get "vlan" (example_entry "oob") = None.
Proof.
  split; [exact example_run_Ok|]. split; [vm_compute; reflexivity|].
  apply (ip_alloc_offset_vlan IPv4Text.IPNetwork_of IPv4Text.str_addr
           IPv4Text.str_net example_offsets example_self (snd example_run)
           "oob" (example_entry "oob")).
  - exact example_run_Ok.
  - discriminate.
  - vm_compute; reflexivity.
  - reflexivity.
Defined.

Lemma ip_alloc_offset_entry_keys_example :
  example_run = (Ok tt, snd example_run) /\
  dict_get "storage" (vlan_network_data (data (snd example_run))) =
    Some (example_entry "storage") /\
  dict_keys (example_entry "storage") =
    ["network"; "gateway"; "reserved_start"; "reserved_end"; "static_start";
     "static_end"; "vlan"; "routes"] /\
  dict_get "subnet" (example_entry "storage") = None /\
  dict_get "mtu" (example_entry "storage") = None.
Proof.
  split; [exact example_run_Ok|]. split; [vm_compute; reflexivity|].
  destruct (ip_alloc_offset_entry_keys IPv4Text.IPNetwork_of IPv4Text.str_addr
              IPv4Text.str_net example_offsets example_self (snd example_run)
              "storage" (example_entry "storage"))
    as (Hkeys & Hsubnet & Hother).
  - exact example_run_Ok.
  - discriminate.
  - vm_compute; reflexivity.
  - split; [exact Hkeys|]. split; [exact Hsubnet|].
    apply Hother. vm_compute. intuition discriminate.
Defined.

(** The counterexample to C3 as stated: with [ip_offset = 1] and
    [static_ip_end = 2] on a subnet of 16 addresses, [0 < 1 < 2 < 15] holds,
    yet [reserved_start] and [reserved_end] are one address, and so are
    [static_start] and [static_end]. *)
Lemma ip_alloc_offset_ranges_not_strict :
  fst tight_run = Ok tt /\
  exists subnet e,
    IPv4Text.IPNetwork_of (VStr "10.0.0.0/28") = Some subnet /\
    Z.of_nat (length (ip_list subnet)) = 16 /\
    offset tight_offsets (ip_offset_name "storage") 1 /\
    offset tight_offsets "static_ip_end" 2 /\
    0 < 1 < 2 /\ 2 < 16 - 1 /\
    dict_get "storage" (vlan_network_data (data (snd tight_run))) = Some e /\
    dict_get "reserved_start" e = Some (VStr "10.0.0.1") /\
    dict_get "reserved_end" e = Some (VStr "10.0.0.1") /\
    dict_get "static_start" e = Some (VStr "10.0.0.2") /\
    dict_get "static_end" e = Some (VStr "10.0.0.2").
Proof.
  split; [vm_compute; reflexivity|].
  eexists _, _. split; [vm_compute; reflexivity|].
  split; [vm_compute; reflexivity|].
  split; [reflexivity|]. split; [reflexivity|].
  split; [lia|]. split; [lia|].
  split; [vm_compute; reflexivity|].
  repeat split; reflexivity.
Qed.

Lemma example_hosts_typed host h :
  In (host, h) (all_hosts example_site) -> type_of (objects example_site) h <> None.
Proof.
  intros H. vm_compute in H.
  destruct H as [H|[H|[H|[]]]]; inversion H; subst; vm_compute; discriminate.
Defined.

(** The example of the specification: of the hosts [h1] (a worker), [h2] and
    [h3] (both genesis), the lookup returns [h3]. *)
Lemma genesis_lookup_h1_h2_h3 :
  (forall host h, In (host, h) (all_hosts example_site) ->
                  type_of (objects example_site) h <> None) /\
  all_hosts example_site = [("h1", 1%nat); ("h2", 2%nat); ("h3", 3%nat)] /\
  exists self',
    _get_genesis_node_details example_self = (Ok tt, self') /\
    genesis_node self' = Some 3%nat /\
    dict_get "name" (deref self' 3%nat) = Some (VStr "h3").
Proof.
  split; [exact example_hosts_typed|]. split; [reflexivity|].
  destruct (genesis_lookup_last_match example_site example_hosts_typed)
    as (self' & Hrun & Hlast & _ & _).
  exists self'. split; [exact Hrun|].
  apply (Hlast [("h1", 1%nat); ("h2", 2%nat)] "h3" 3%nat []).
  - reflexivity.
  - vm_compute; reflexivity.
  - intros r [].
Defined.

Lemma genesis_node_is_host_entry_example :
  (forall host h, In (host, h) (all_hosts example_site) ->
                  type_of (objects example_site) h <> None) /\
  exists self',
    _get_genesis_node_details example_self = (Ok tt, self') /\
    baremetal (data self') = baremetal example_site /\
    objects (data self') !! 1%nat = objects example_site !! 1%nat.
Proof.
  split; [exact example_hosts_typed|].
  destruct (genesis_node_is_host_entry example_site example_hosts_typed)
    as (self' & Hrun & Hbm & _ & Hother).
  exists self'. split; [exact Hrun|]. split; [exact Hbm|].
  apply Hother. vm_compute; reflexivity.
Defined.

(** The counterexample to C2 as stated: the lookup returns, [genesis_node]
    is the location that the baremetal block holds for [h3], and the mapping
    at that location, which had no [name], has one afterwards. *)
Lemma genesis_lookup_writes_host_entry :
  fst example_lookup = Ok tt /\
  (exists rack_hosts,
     dict_get "rack2" (baremetal (data (snd example_lookup))) = Some rack_hosts /\
     dict_get "h3" rack_hosts = Some 3%nat) /\
  genesis_node (snd example_lookup) = Some 3%nat /\
  deref example_self 3%nat = [("type", VStr "genesis")] /\
  dict_get "name" (deref example_self 3%nat) = None /\
  deref (snd example_lookup) 3%nat = [("type", VStr "genesis"); ("name", VStr "h3")] /\
  dict_get "name" (deref (snd example_lookup) 3%nat) = Some (VStr "h3").
Proof.
  split; [vm_compute; reflexivity|].
  split; [eexists; split; vm_compute; reflexivity|].
  repeat split; vm_compute; reflexivity.
Qed.


(** ** The rule: errors and what they leave written *)

Lemma dict_set_same {V : Type} (k : string) (v : V) (d : dict V) :
  dict_get k d = Some v -> dict_set k v d = d.
Proof.
  induction d as [|[k' v'] d IH]; simpl; [discriminate|].
  destruct (String.eqb k k') eqn:E.
  - intros H. inversion H. reflexivity.
  - intros H. now rewrite IH.
Qed.

Lemma collect_rules_missing d name :
  In name offset_names -> dict_get name d = None ->
  collect_rules (VDict d) = Raise KeyError.
Proof.
  intros Hin Hnone. unfold collect_rules, subscript_key, subscript.
  simpl in Hin.
  destruct Hin as [<-|[<-|[<-|[<-|[<-|[<-|[]]]]]]];
    repeat match goal with
    | |- context [dict_get ?k d] =>
        first [ rewrite Hnone | destruct (dict_get k d) eqn:? ];
        cbn [mbind result_bind]; try reflexivity
    end.
Qed.

Section RuleErrors.

Variable IPNetwork_of : Value -> option IPNetwork.
Variable str_addr : IPAddress -> string.
Variable str_net : IPNetwork -> string.

Abbreviation resolve := (resolve_entry str_addr str_net).
Abbreviation ip_alloc_offset := (_apply_rule_ip_alloc_offset IPNetwork_of str_addr str_net).
Abbreviation network_subnets_of := (_get_network_subnets IPNetwork_of).
Abbreviation str a := (VStr (str_addr a)).

(** X1: a payload that is not a mapping, or that lacks one of the six offsets,
    makes the rule raise ([TypeError], [KeyError]) before it has written
    anything. *)
Theorem ip_alloc_offset_incomplete_payload rule_data self :
  match rule_data with
  | VDict d => exists name, In name offset_names /\ dict_get name d = None
  | _ => True
  end ->
  ip_alloc_offset rule_data self =
  (Raise match rule_data with VDict _ => KeyError | _ => TypeError end, self).
Proof.
  intros H. unfold _apply_rule_ip_alloc_offset.
  unfold mbind at 1, method_bind at 1, lift at 1.
  destruct rule_data as [z|t|l|d]; try reflexivity.
  destruct H as (name & Hin & Hnone).
  now rewrite (collect_rules_missing d name Hin Hnone).
Qed.

(** Once the offsets have been read and the ingress network has given its
    address, the rule has written [bgp] and goes on with the other networks. *)
Lemma ip_alloc_offset_after_bgp rule_data self off ingress sv s0 subnet vip :
  collect_rules rule_data = Ok off ->
  dict_get "ingress" (vlan_network_data (data self)) = Some ingress ->
  dict_get "subnet" ingress = Some sv ->
  subscript_zero sv = Ok s0 ->
  IPNetwork_of s0 = Some subnet ->
  list_index (ip_list subnet) (ingress_vip_offset off) = Ok vip ->
  ip_alloc_offset rule_data self =
  match network_subnets_of self with
  | Ok ns =>
      vlan_networks_loop str_addr str_net off (dict_keys ns) ns
        (bgp_written (str vip) s0 self)
  | Raise e => (Raise e, bgp_written (str vip) s0 self)
  end.
Proof.
  intros Hc Hin Hsv Hs0 Hnet Hvip.
  unfold _apply_rule_ip_alloc_offset.
  unfold mbind at 1, method_bind at 1, lift at 1. rewrite Hc.
  unfold mbind, method_bind, lift, get_self, modify, subscript, IPNetwork_new.
  simpl. rewrite Hin, Hsv, Hs0, Hnet, Hvip.
  unfold _get_network_subnets. simpl.
  destruct (network_subnets_loop IPNetwork_of
              (dict_keys (vlan_network_data (data self)))
              (vlan_network_data (data self)) []); reflexivity.
Qed.

(** X2: with a complete payload, the rule raises before it has written anything
    when the ingress network is missing or has no [subnet] ([KeyError]),
    when the [subnet] is an empty sequence ([IndexError]), when netaddr
    does not accept its first element (whichever exception netaddr raises
    there) and when [offsets.ingress_vip] is outside the address list of an
    ingress subnet of at most 65536 addresses ([IndexError]). *)
Theorem ip_alloc_offset_ingress_errors rule_data self off :
  collect_rules rule_data = Ok off ->
  (dict_get "ingress" (vlan_network_data (data self)) = None ->
   ip_alloc_offset rule_data self = (Raise KeyError, self)) /\
  (forall ingress,
     dict_get "ingress" (vlan_network_data (data self)) = Some ingress ->
     (dict_get "subnet" ingress = None ->
      ip_alloc_offset rule_data self = (Raise KeyError, self)) /\
     (dict_get "subnet" ingress = Some (VList []) ->
      ip_alloc_offset rule_data self = (Raise IndexError, self)) /\
     (forall sv s0,
        dict_get "subnet" ingress = Some sv ->
        subscript_zero sv = Ok s0 ->
        (IPNetwork_of s0 = None ->
         exists e, ip_alloc_offset rule_data self = (Raise e, self)) /\
        (forall subnet i,
           IPNetwork_of s0 = Some subnet ->
           ingress_vip_offset off = VInt i ->
           Z.of_nat (length (ip_list subnet)) <= 65536 ->
           ~ (- Z.of_nat (length (ip_list subnet)) <= i
              < Z.of_nat (length (ip_list subnet))) ->
           ip_alloc_offset rule_data self = (Raise IndexError, self)))).
Proof.
  intros Hc.
  unfold _apply_rule_ip_alloc_offset.
  unfold mbind at 1, method_bind at 1, lift at 1. rewrite Hc.
  unfold mbind, method_bind, lift, get_self, modify, subscript, IPNetwork_new.
  simpl. split.
  - intros ->. reflexivity.
  - intros ingress ->. split; [|split].
    + intros ->. reflexivity.
    + intros ->. reflexivity.
    + intros sv s0 -> ->. split.
      * intros ->. eexists. reflexivity.
      * intros subnet i -> -> _ Hout.
        destruct (py_index (ip_list subnet) i) as [a|e] eqn:E.
        -- apply py_index_Ok in E. exfalso. apply Hout.
           unfold py_position in E. destruct (Z.ltb_spec i 0); lia.
        -- simpl. rewrite E.
           unfold py_index in E.
           destruct (_ && _); [|inversion E; reflexivity].
           destruct (nth_error _ _); [discriminate | inversion E; reflexivity].
Qed.

Lemma network_subnets_loop_KeyError ks vlan acc :
  (exists k entry, In k ks /\ k <> "ingress" /\
     dict_get k vlan = Some entry /\ dict_get "subnet" entry = None) ->
  (forall k entry sv, In k ks -> k <> "ingress" ->
     dict_get k vlan = Some entry -> dict_get "subnet" entry = Some sv ->
     IPNetwork_of sv <> None) ->
  network_subnets_loop IPNetwork_of ks vlan acc = Raise KeyError.
Proof.
  revert acc. induction ks as [|k0 ks IH]; intros acc Hbad Hparse.
  - destruct Hbad as (k & entry & [] & _).
  - simpl. destruct (String.eqb k0 "ingress") eqn:E; simpl.
    + apply String.eqb_eq in E. subst k0. apply IH.
      * destruct Hbad as (k & entry & [<-|Hin] & Hne & H1 & H2); [congruence|].
        exists k, entry. auto.
      * intros k entry sv Hin. apply Hparse. simpl. auto.
    + apply String.eqb_neq in E. unfold subscript.
      destruct (dict_get k0 vlan) as [entry0|] eqn:E0; [|reflexivity].
      simpl. destruct (dict_get "subnet" entry0) as [sv0|] eqn:Esv; [|reflexivity].
      simpl. unfold IPNetwork_new.
      destruct (IPNetwork_of sv0) as [net|] eqn:Enet.
      * simpl. apply IH.
        -- destruct Hbad as (k & entry & [<-|Hin] & Hne & H1 & H2); [congruence|].
           exists k, entry. auto.
        -- intros k entry sv Hin. apply Hparse. simpl. auto.
      * exfalso. apply (Hparse k0 entry0 sv0); simpl; auto.
Qed.

(** X3: the rule writes [bgp] before it looks at the other networks: with an
    ingress subnet of at most 65536 addresses (one whose address list can
    be built), when one of the other networks has no [subnet] (and the
    subnets that are there are networks), the rule raises [KeyError] with
    both fields of [bgp] written and [vlan_network_data] as it was. *)
Theorem ip_alloc_offset_raises_after_bgp rule_data self off ingress sv s0 subnet vip :
  collect_rules rule_data = Ok off ->
  dict_get "ingress" (vlan_network_data (data self)) = Some ingress ->
  dict_get "subnet" ingress = Some sv ->
  subscript_zero sv = Ok s0 ->
  IPNetwork_of s0 = Some subnet ->
  Z.of_nat (length (ip_list subnet)) <= 65536 ->
  list_index (ip_list subnet) (ingress_vip_offset off) = Ok vip ->
  (exists net_type entry,
     net_type <> "ingress" /\
     dict_get net_type (vlan_network_data (data self)) = Some entry /\
     dict_get "subnet" entry = None) ->
  (forall net_type entry sv,
     net_type <> "ingress" ->
     dict_get net_type (vlan_network_data (data self)) = Some entry ->
     dict_get "subnet" entry = Some sv -> IPNetwork_of sv <> None) ->
  exists self',
    ip_alloc_offset rule_data self = (Raise KeyError, self') /\
    dict_get "ingress_vip" (bgp (data self')) = Some (str vip) /\
    dict_get "public_service_cidr" (bgp (data self')) = Some s0 /\
    vlan_network_data (data self') = vlan_network_data (data self).
Proof.
  intros Hc Hin Hsv Hs0 Hnet _ Hvip (net_type & entry & Hne & Hentry & Hnone) Hparse.
  exists (bgp_written (str vip) s0 self).
  rewrite (ip_alloc_offset_after_bgp _ _ _ _ _ _ _ _ Hc Hin Hsv Hs0 Hnet Hvip).
  unfold _get_network_subnets. rewrite network_subnets_loop_KeyError.
  - split; [reflexivity|]. simpl. split; [|split; [|reflexivity]].
    + rewrite dict_get_set_ne by discriminate. apply dict_get_set_eq.
    + apply dict_get_set_eq.
  - exists net_type, entry. repeat split; auto.
    apply dict_get_In_keys. eauto.
  - intros k entry' sv' _. apply Hparse.
Qed.

Lemma resolve_entry_no_subnet off net_type subnet self e :
  resolve off net_type subnet self = Ok e -> dict_get "subnet" e = None.
Proof.
  intros H. apply resolve_entry_Ok in H.
  destruct H as (gw & io & se & a_gw & a_rs & a_re & a_ss & a_se & a_end &
                 dhcp & vlan & _ & _ & _ & _ & _ & _ & _ & _ &
                 Hdhcp & Hvlan & He).
  destruct (String.eqb net_type "pxe");
    [destruct Hdhcp as (? & ? & ? & _ & _ & _ & _ & ->) | destruct Hdhcp as [_ ->]];
    (destruct (String.eqb net_type "oob");
      [subst vlan | destruct Hvlan as (? & ? & _ & _ & ->)]);
    subst e; reflexivity.
Qed.

(** X4: the rule cannot be applied twice: after a run that returns on a document
    with a network other than [ingress], a second run with the same payload
    raises [KeyError], since the entries have lost their [subnet]; it leaves
    the state as the first run left it. *)
Theorem ip_alloc_offset_second_run rule_data self self' net_type :
  ip_alloc_offset rule_data self = (Ok tt, self') ->
  In net_type (dict_keys (vlan_network_data (data self))) ->
  net_type <> "ingress" ->
  ip_alloc_offset rule_data self' = (Raise KeyError, self').
Proof.
  intros Hrun Hkey Hne.
  destruct (ip_alloc_offset_Ok _ _ _ _ _ _ Hrun)
    as (off & ingress & sv & s0 & subnet & i & vip & Hc & Hin & Hsv & Hs0 & Hnet &
        Hi & Hvip & Hbgp & _ & _ & _ & Hkeys & Hin' & Hall).
  assert (Hvip' : list_index (ip_list subnet) (ingress_vip_offset off) = Ok vip)
    by (rewrite Hi; exact Hvip).
  rewrite (ip_alloc_offset_after_bgp _ _ _ _ _ _ _ _ Hc Hin' Hsv Hs0 Hnet Hvip').
  assert (Hsame : bgp_written (str vip) s0 self' = self').
  { unfold bgp_written. rewrite Hbgp.
    rewrite (dict_set_same "ingress_vip").
    - rewrite (dict_set_same "public_service_cidr") by apply dict_get_set_eq.
      rewrite <- Hbgp. destruct self' as [[] ?]. reflexivity.
    - rewrite dict_get_set_ne by discriminate. apply dict_get_set_eq. }
  rewrite Hsame. unfold _get_network_subnets.
  rewrite network_subnets_loop_KeyError; [reflexivity| |].
  - rewrite Hkeys.
    assert (Hget : exists e, dict_get net_type (vlan_network_data (data self')) = Some e).
    { apply dict_get_In_keys. now rewrite Hkeys. }
    destruct Hget as [e Hget].
    exists net_type, e. repeat split; auto.
    destruct (Hall _ _ Hne Hget) as (old & sv' & net & _ & _ & _ & Hres).
    eapply resolve_entry_no_subnet; eauto.
  - intros k e sv' _ Hk Hget Hsub. exfalso.
    destruct (Hall _ _ Hk Hget) as (old & sv'' & net & _ & _ & _ & Hres).
    apply resolve_entry_no_subnet in Hres. congruence.
Qed.

(** X5: a run of the rule that returns has written nothing but the two fields of
    [bgp] and the entries of the networks: the baremetal block, the host
    mappings and [genesis_node] are as they were, no network type has been
    added, dropped or moved, and the other fields of [bgp] are kept. *)
Theorem ip_alloc_offset_frame rule_data self self' :
  ip_alloc_offset rule_data self = (Ok tt, self') ->
  baremetal (data self') = baremetal (data self) /\
  objects (data self') = objects (data self) /\
  genesis_node self' = genesis_node self /\
  dict_keys (vlan_network_data (data self')) =
    dict_keys (vlan_network_data (data self)) /\
  (forall k, k <> "ingress_vip" -> k <> "public_service_cidr" ->
     dict_get k (bgp (data self')) = dict_get k (bgp (data self))).
Proof.
  intros Hrun.
  destruct (ip_alloc_offset_Ok _ _ _ _ _ _ Hrun)
    as (off & ingress & sv & s0 & subnet & i & vip & _ & _ & _ & _ & _ &
        _ & _ & Hbgp & Hbm & Hobj & Hg & Hkeys & _ & _).
  repeat (split; [assumption|]).
  intros k H1 H2. rewrite Hbgp.
  rewrite dict_get_set_ne by congruence. apply dict_get_set_ne. congruence.
Qed.

Lemma ip_list_index_eq (n : IPNetwork) (i : Z) (a : IPAddress) :
  py_index (ip_list n) i = Ok a ->
  a = mkIPAddress (net_version n)
        (first n + py_position (Z.of_nat (length (ip_list n))) i).
Proof.
  intros H. apply py_index_Ok in H. destruct H as [Hp Hn].
  apply ip_list_nth in Hn. destruct Hn as [-> _]. f_equal. lia.
Qed.

Lemma py_index_bounds {A : Type} (l : list A) (i : Z) (a : A) :
  py_index l i = Ok a -> - Z.of_nat (length l) <= i < Z.of_nat (length l).
Proof.
  intros H. apply py_index_Ok in H. destruct H as [H _].
  unfold py_position in H. destruct (Z.ltb_spec i 0); lia.
Qed.

(** X6: the rule returns only if every network other than [ingress] has at least
    two addresses and holds the offsets it is read at: [gateway],
    [static_ip_end] and the network's [ip_offset] lie in [-N, N) and
    [ip_offset + 1] does too.  A network of one address makes the rule
    raise. *)
Theorem ip_alloc_offset_needs_room rule_data self self' net_type :
  ip_alloc_offset rule_data self = (Ok tt, self') ->
  In net_type (dict_keys (vlan_network_data (data self))) ->
  net_type <> "ingress" ->
  exists old sv subnet gw ip_offset se,
    let N := Z.of_nat (length (ip_list subnet)) in
    dict_get net_type (vlan_network_data (data self)) = Some old /\
    dict_get "subnet" old = Some sv /\
    IPNetwork_of sv = Some subnet /\
    offset rule_data "gateway" gw /\
    offset rule_data (ip_offset_name net_type) ip_offset /\
    offset rule_data "static_ip_end" se /\
    2 <= N /\
    - N <= gw < N /\
    - N <= ip_offset < N - 1 /\
    - N <= se < N.
Proof.
  intros Hrun Hkey Hne.
  destruct (ip_alloc_offset_Ok _ _ _ _ _ _ Hrun)
    as (off & _ & _ & _ & _ & _ & _ & Hc & _ & _ & _ & _ & _ & _ & _ & _ &
        _ & _ & Hkeys & _ & Hall).
  assert (Hget : exists e, dict_get net_type (vlan_network_data (data self')) = Some e).
  { apply dict_get_In_keys. now rewrite Hkeys. }
  destruct Hget as [e Hget].
  destruct (Hall _ _ Hne Hget) as (old & sv & subnet & Hold & Hsv & Hnet & Hres).
  apply resolve_entry_Ok in Hres.
  destruct Hres as (gw & io & se & a_gw & a_rs & a_re & a_ss & a_se & a_end &
                    dhcp & vlan & Hgw & Hio & Hse & H1 & H2 & H3 & H4 & H5 & _).
  pose proof (ip_offset_of_offset _ _ _ _ Hc Hio) as Hio'.
  pose proof (collect_rules_Ok _ _ Hc) as (_ & _ & Hg & _ & Hs & _).
  exists old, sv, subnet, gw, io, se. intros N.
  unfold offset. rewrite Hg, Hs, Hgw, Hse.
  repeat (split; [assumption || reflexivity|]).
  apply py_index_bounds in H1, H2, H3, H4, H5. fold N in H1, H2, H3, H4, H5.
  lia.
Qed.

(** X7: the addresses of a resolved entry in numbers: each field is the address
    of the network's version whose value is the first address of the subnet
    plus the position of its offset, an offset below zero counting from the
    end of the list ([N + offset]); [reserved_start] is the first address
    plus one; for [pxe], [static_end] and [dhcp_start] are at [N // 2 - 1]
    and [N // 2], and [dhcp_end] is at the position of
    [offsets.dhcp_ip_end]. *)
Theorem ip_alloc_offset_address_values rule_data self self' net_type e :
  ip_alloc_offset rule_data self = (Ok tt, self') ->
  net_type <> "ingress" ->
  dict_get net_type (vlan_network_data (data self')) = Some e ->
  exists old sv subnet gw ip_offset se,
    let N := Z.of_nat (length (ip_list subnet)) in
    let address p := str (mkIPAddress (net_version subnet) (first subnet + p)) in
    dict_get net_type (vlan_network_data (data self)) = Some old /\
    dict_get "subnet" old = Some sv /\
    IPNetwork_of sv = Some subnet /\
    offset rule_data "gateway" gw /\
    offset rule_data (ip_offset_name net_type) ip_offset /\
    offset rule_data "static_ip_end" se /\
    dict_get "gateway" e = Some (address (py_position N gw)) /\
    dict_get "reserved_start" e = Some (address 1) /\
    dict_get "reserved_end" e = Some (address (py_position N ip_offset)) /\
    dict_get "static_start" e = Some (address (py_position N (ip_offset + 1))) /\
    dict_get "static_end" e =
      Some (address (if String.eqb net_type "pxe" then N / 2 - 1
                     else py_position N se)) /\
    (net_type = "pxe" ->
     dict_get "dhcp_start" e = Some (address (N / 2)) /\
     exists de,
       offset rule_data "dhcp_ip_end" de /\
       dict_get "dhcp_end" e = Some (address (py_position N de))).
Proof.
  intros Hrun Hne Hget.
  destruct (rule_entry _ _ _ _ _ _ _ _ Hrun Hne Hget)
    as (off & old & sv & subnet & Hc & Hold & Hsv & Hnet & Hres).
  apply resolve_entry_Ok in Hres.
  destruct Hres as (gw & io & se & a_gw & a_rs & a_re & a_ss & a_se & a_end &
                    dhcp & vlan & Hgw & Hio & Hse & H1 & H2 & H3 & H4 & H5 &
                    Hdhcp & Hvlan & He).
  pose proof (ip_offset_of_offset _ _ _ _ Hc Hio) as Hio'.
  pose proof (collect_rules_Ok _ _ Hc) as (_ & _ & Hg & _ & Hs & Hd).
  exists old, sv, subnet, gw, io, se. intros N address.
  unfold offset. rewrite Hg, Hs, Hgw, Hse.
  repeat (split; [assumption || reflexivity|]).
  assert (HN : 2 <= N) by (apply py_index_bounds in H2; fold N in H2; lia).
  assert (Hm : 1 <= N / 2 < N).
  { split; [apply Z.div_le_lower_bound; lia | apply Z.div_lt; lia]. }
  apply ip_list_index_eq in H1, H2, H3, H4, H5. fold N in H1, H2, H3, H4, H5.
  change (py_position N 1) with 1 in H2.
  subst a_gw a_rs a_re a_ss a_se. unfold address.
  destruct (String.eqb net_type "pxe") eqn:Epxe.
  - destruct Hdhcp as (de & a_m & a_de & Hde & Hend & Hmid & Hdend & ->).
    apply ip_list_index_eq in Hend, Hmid, Hdend. fold N in Hend, Hmid, Hdend.
    unfold py_position in Hend, Hmid.
    replace (N / 2 - 1 <? 0) with false in Hend by (symmetry; apply Z.ltb_ge; lia).
    replace (N / 2 <? 0) with false in Hmid by (symmetry; apply Z.ltb_ge; lia).
    subst a_end a_m a_de e. do 5 (split; [reflexivity|]).
    intros _. split; [reflexivity|].
    exists de. rewrite Hd, Hde. split; reflexivity.
  - destruct Hdhcp as [-> ->]. subst e.
    do 5 (split; [reflexivity|]).
    intros ->. discriminate.
Qed.

Lemma dict_keys_set_absent {V : Type} (k : string) (v : V) (d : dict V) :
  ~ In k (dict_keys d) -> dict_keys (dict_set k v d) = (dict_keys d ++ [k])%list.
Proof.
  induction d as [|[k' v'] d IH]; simpl; [reflexivity|].
  intros H. destruct (String.eqb k k') eqn:E.
  - apply String.eqb_eq in E. subst. tauto.
  - simpl. f_equal. apply IH. tauto.
Qed.

Lemma network_subnets_loop_keys ks vlan acc ns :
  network_subnets_loop IPNetwork_of ks vlan acc = Ok ns ->
  List.NoDup ks ->
  (forall k, In k ks -> ~ In k (dict_keys acc)) ->
  dict_keys ns =
  (dict_keys acc ++ List.filter (fun k => negb (String.eqb k "ingress")) ks)%list.
Proof using IPNetwork_of.
  revert acc. induction ks as [|k0 ks IH]; simpl; intros acc H Hnd Hfresh.
  - inversion H; subst. rewrite app_nil_r. reflexivity.
  - inversion Hnd as [|? ? Hnin Hnd']; subst.
    destruct (String.eqb k0 "ingress") eqn:E; simpl in H |- *.
    + apply IH; [exact H | exact Hnd' |].
      intros k Hk. apply Hfresh. right. exact Hk.
    + unfold subscript, IPNetwork_new in H.
      destruct (dict_get k0 vlan) as [entry|]; [|discriminate]. simpl in H.
      destruct (dict_get "subnet" entry) as [sv|]; [|discriminate]. simpl in H.
      destruct (IPNetwork_of sv) as [net|]; [|discriminate]. simpl in H.
      rewrite (IH _ H Hnd').
      * rewrite dict_keys_set_absent by (apply Hfresh; left; reflexivity).
        rewrite <- app_assoc. reflexivity.
      * intros k Hk. rewrite dict_keys_set_In. intros [->|Hin]; [exact (Hnin Hk)|].
        apply (Hfresh k); [right; exact Hk | exact Hin].
Qed.

(** X8: [_get_network_subnets] keeps the order of the document: the network
    types of its result are those of [vlan_network_data] with [ingress]
    taken out, in the same order, each with the network that its [subnet]
    denotes. *)
Theorem get_network_subnets_in_order self ns :
  List.NoDup (dict_keys (vlan_network_data (data self))) ->
  network_subnets_of self = Ok ns ->
  dict_keys ns =
    List.filter (fun k => negb (String.eqb k "ingress"))
      (dict_keys (vlan_network_data (data self))) /\
  dict_get "ingress" ns = None /\
  (forall k net, dict_get k ns = Some net ->
     exists entry sv,
       dict_get k (vlan_network_data (data self)) = Some entry /\
       dict_get "subnet" entry = Some sv /\ IPNetwork_of sv = Some net).
Proof using IPNetwork_of.
  intros Hnd H.
  pose proof (network_subnets_Ok IPNetwork_of (fun _ => EmptyString) self ns H)
    as (_ & Hkeys & Hsub).
  split; [|split; [|exact Hsub]].
  - unfold _get_network_subnets in H.
    apply network_subnets_loop_keys in H; [exact H | exact Hnd |].
    intros k _ [].
  - destruct (dict_get "ingress" ns) as [net|] eqn:E; [|reflexivity].
    assert (Hin : In "ingress" (dict_keys ns)).
    { apply dict_get_In_keys. exists net. exact E. }
    apply Hkeys in Hin. destruct Hin as [_ Hne]. contradiction Hne. reflexivity.
Qed.

End RuleErrors.

(** ** The dispatch: entries, placeholders and what the rules keep *)

Section DispatchEntries.

Variable IPNetwork_of : Value -> option IPNetwork.
Variable str_addr : IPAddress -> string.
Variable str_net : IPNetwork -> string.

Abbreviation ip_alloc_offset := (_apply_rule_ip_alloc_offset IPNetwork_of str_addr str_net).
Abbreviation apply_rule := (apply_design_rule IPNetwork_of str_addr str_net).
Abbreviation apply_loop := (apply_design_rules_loop IPNetwork_of str_addr str_net).
Abbreviation apply_rules := (_apply_design_rules IPNetwork_of str_addr str_net).
Abbreviation generate := (generate_intermediary_yaml IPNetwork_of str_addr str_net).

(** X9: an entry of the rule collection that is not a mapping, has no [name],
    has a [name] that is not a string, or has no payload under its name,
    raises before any handler is looked up ([TypeError], [KeyError],
    [TypeError], [KeyError]); the payload is required even by the rules
    whose handler does nothing. *)
Theorem apply_design_rule_malformed rules_data rule entry self :
  dict_get rule rules_data = Some entry ->
  match entry with
  | VDict d =>
      match dict_get "name" d with
      | None => apply_rule rules_data rule self = (Raise KeyError, self)
      | Some (VStr rule_name) =>
          dict_get rule_name d = None ->
          apply_rule rules_data rule self = (Raise KeyError, self)
      | Some _ => apply_rule rules_data rule self = (Raise TypeError, self)
      end
  | _ => apply_rule rules_data rule self = (Raise TypeError, self)
  end.
Proof.
  intros Hentry. unfold apply_design_rule.
  unfold mbind, method_bind, lift, subscript. rewrite Hentry.
  destruct entry as [z|t|l|d]; try reflexivity. simpl. unfold subscript.
  destruct (dict_get "name" d) as [[z|n|l|d']|]; try reflexivity.
  simpl. unfold subscript. intros ->. reflexivity.
Qed.

(** X10: a well-formed entry is handed to the handler of its name with the
    payload found under that name: the rule itself for [ip_alloc_offset],
    and nothing at all for [host_profile_interfaces] and
    [hardware_profile]. *)
Theorem apply_design_rule_registered rules_data rule d rule_name payload self :
  dict_get rule rules_data = Some (VDict d) ->
  dict_get "name" d = Some (VStr rule_name) ->
  dict_get rule_name d = Some payload ->
  (rule_name = "ip_alloc_offset" ->
   apply_rule rules_data rule self = ip_alloc_offset payload self) /\
  (rule_name = "host_profile_interfaces" \/ rule_name = "hardware_profile" ->
   apply_rule rules_data rule self = (Ok tt, self)).
Proof.
  intros Hentry Hname Hpayload. unfold apply_design_rule.
  unfold mbind, method_bind, lift, subscript. rewrite Hentry. simpl.
  unfold subscript. rewrite Hname. simpl. unfold subscript. rewrite Hpayload.
  split.
  - intros ->. simpl. destruct (ip_alloc_offset payload self) as [[[]|] ?]; reflexivity.
  - intros [->| ->]; reflexivity.
Qed.

Lemma apply_design_rule_frame rules_data rule self self' :
  apply_rule rules_data rule self = (Ok tt, self') ->
  baremetal (data self') = baremetal (data self) /\
  objects (data self') = objects (data self) /\
  genesis_node self' = genesis_node self.
Proof.
  unfold apply_design_rule. intros H. method_inv H.
  unfold getattr_rule in *.
  repeat match goal with
  | Hg : (if ?b then _ else _) = Ok _ |- _ => destruct b
  end; results_inv.
  - inversion H; subst. auto.
  - inversion H; subst. auto.
  - apply ip_alloc_offset_Ok in H.
    destruct H as (? & ? & ? & ? & ? & ? & ? & _ & _ & _ & _ & _ & _ & _ & _ &
                   Hbm & Hobj & Hg & _). auto.
  - discriminate.
Qed.

Lemma apply_design_rules_loop_frame rules_data rules self self' :
  apply_loop rules_data rules self = (Ok tt, self') ->
  baremetal (data self') = baremetal (data self) /\
  objects (data self') = objects (data self) /\
  genesis_node self' = genesis_node self.
Proof.
  revert self. induction rules as [|rule rules IH]; simpl; intros self H.
  - inversion H; subst. auto.
  - method_inv H. destruct a.
    apply apply_design_rule_frame in Hm. apply IH in H.
    destruct Hm as (H1 & H2 & H3), H as (H4 & H5 & H6).
    repeat split; congruence.
Qed.

(** X11: no rule touches the hosts: when the dispatch returns, the baremetal
    block, the host mappings and [genesis_node] are as they were, whatever
    the rule collection is. *)
Theorem apply_design_rules_keeps_hosts rules_data self self' :
  _apply_design_rules IPNetwork_of str_addr str_net rules_data self = (Ok tt, self') ->
  baremetal (data self') = baremetal (data self) /\
  objects (data self') = objects (data self) /\
  genesis_node self' = genesis_node self.
Proof. apply apply_design_rules_loop_frame. Qed.

(** X12: a run of [generate_intermediary_yaml] whose rules return, on a freshly
    loaded document whose hosts all have a [type], returns; the document it
    returns is the processor's own [data], with the networks as the rules
    left them and the baremetal block of the input; the genesis node is the
    last genesis host of the input, whatever the rules were. *)
Theorem generate_intermediary_yaml_returns rules_data d self1 :
  apply_rules rules_data (load_extracted_data_from_data_source d) = (Ok tt, self1) ->
  (forall host h, In (host, h) (all_hosts d) -> type_of (objects d) h <> None) ->
  exists self2,
    generate rules_data (load_extracted_data_from_data_source d) =
      (Ok (data self2), self2) /\
    vlan_network_data (data self2) = vlan_network_data (data self1) /\
    bgp (data self2) = bgp (data self1) /\
    baremetal (data self2) = baremetal d /\
    genesis_node self2 = option_map snd (last_genesis d).
Proof.
  intros Hrules Hty.
  pose proof (apply_design_rules_loop_frame _ _ _ _ Hrules) as (Hbm & Hobj & Hg).
  simpl in Hbm, Hobj, Hg.
  exists (with_genesis (visit_all (all_hosts d) (None, objects d)) self1).
  split; [|split; [reflexivity|split; [reflexivity|split; [exact Hbm|]]]].
  - unfold generate_intermediary_yaml.
    unfold mbind at 1, method_bind at 1. rewrite Hrules.
    unfold mbind at 1, method_bind at 1.
    unfold _get_genesis_node_details, mbind at 1, method_bind at 1, get_self at 1.
    rewrite racks_loop_visit.
    + unfold genesis_state. rewrite Hbm, Hobj, Hg. reflexivity.
    + auto.
    + rewrite Hbm, Hobj. exact Hty.
  - pose proof (visit_all_spec (all_hosts d) None (objects d)) as (Hlast & _ & _).
    unfold last_genesis. simpl.
    destruct (find_last (fun r => is_genesis (objects d) (snd r)) (all_hosts d))
      as [[host h]|]; simpl; [tauto | now rewrite Hlast].
Qed.

End DispatchEntries.

(** ** The genesis lookup: names, reruns and missing types *)

Lemma find_last_ext {A : Type} (p q : A -> bool) (l : list A) :
  (forall x, p x = q x) -> find_last p l = find_last q l.
Proof.
  intros H. induction l as [|x l IH]; simpl; [reflexivity|].
  now rewrite IH, H.
Qed.

(** The mapping at a location after the hosts [refs] have been visited: the
    one that was there, with [name] set to the key of the last genesis host
    at that location, if there is one. *)
Lemma visit_all_objects refs g o h :
  snd (visit_all refs (g, o)) !! h =
  match last_writer o refs h with
  | Some (host, _) => Some (dict_set "name" (VStr host) (default [] (o !! h)))
  | None => o !! h
  end.
Proof.
  unfold last_writer. induction refs as [|r refs IH] using rev_ind; [reflexivity|].
  rewrite visit_all_app, find_last_app.
  pose proof (visit_all_is_genesis refs (g, o)) as Hgen. simpl in Hgen.
  destruct (visit_all refs (g, o)) as [g1 o1]. simpl in *.
  destruct r as [host h0]. simpl. rewrite Hgen.
  destruct (is_genesis o h0) eqn:Eg; simpl.
  - destruct (Nat.eqb_spec h0 h) as [->|Hne]; simpl.
    + rewrite lookup_insert_eq. unfold dict in *. rewrite IH.
      match goal with
      | |- context [find_last ?p refs] =>
          destruct (find_last p refs) as [[host' h']|]; simpl
      end; [|reflexivity].
      f_equal. apply (dict_set_set (V := Value)).
    + rewrite lookup_insert_ne by assumption. exact IH.
  - rewrite andb_false_r. exact IH.
Qed.

Lemma last_writer_Some o refs h host h' :
  last_writer o refs h = Some (host, h') ->
  h' = h /\ In (host, h) refs /\ is_genesis o h = true.
Proof.
  unfold last_writer. intros H. apply find_last_Some_In in H.
  destruct H as [Hin Hp]. simpl in Hp. apply andb_true_iff in Hp.
  destruct Hp as [Heq Hg]. apply Nat.eqb_eq in Heq. subst h'. auto.
Qed.

Lemma last_writer_None o refs h host :
  last_writer o refs h = None -> In (host, h) refs -> is_genesis o h = false.
Proof.
  unfold last_writer. intros H Hin.
  destruct (is_genesis o h) eqn:E; [|reflexivity].
  induction refs as [|r refs IH]; [destruct Hin|].
  simpl in H. revert H IH.
  match goal with
  | |- context [find_last ?p refs] => destruct (find_last p refs)
  end; [discriminate|].
  intros H IH. destruct Hin as [->|Hin].
  - simpl in H. rewrite Nat.eqb_refl, E in H. discriminate.
  - apply IH; auto.
Qed.

(** X13: every host whose type is [genesis] has a [name] after the lookup, not
    only the one that [genesis_node] refers to: the key of the last host,
    in the order of the lookup, that shares its mapping (no host after it
    has that mapping), which is its own key when no other host does.  Apart
    from [name], every field of every host mapping is as it was, and so is
    the network block. *)
Theorem genesis_lookup_names_every_genesis_host d :
  (forall host h, In (host, h) (all_hosts d) -> type_of (objects d) h <> None) ->
  exists self',
    _get_genesis_node_details (load_extracted_data_from_data_source d) =
      (Ok tt, self') /\
    (forall host h,
       In (host, h) (all_hosts d) -> is_genesis (objects d) h = true ->
       (exists host', In (host', h) (all_hosts d) /\
                      dict_get "name" (deref self' h) = Some (VStr host')) /\
       ((forall host', In (host', h) (all_hosts d) -> host' = host) ->
        dict_get "name" (deref self' h) = Some (VStr host))) /\
    (forall before host h after,
       all_hosts d = (before ++ (host, h) :: after)%list ->
       is_genesis (objects d) h = true ->
       (forall host', ~ In (host', h) after) ->
       last_writer (objects d) (all_hosts d) h = Some (host, h) /\
       dict_get "name" (deref self' h) = Some (VStr host)) /\
    (forall h k, k <> "name" ->
       dict_get k (deref self' h) =
       dict_get k (deref (load_extracted_data_from_data_source d) h)) /\
    vlan_network_data (data self') = vlan_network_data d /\
    bgp (data self') = bgp d.
Proof.
  intros Hty. eexists. split; [apply get_genesis_node_details_visit, Hty|].
  split; [|split; [|split; [|split; reflexivity]]].
  2: { intros before host h after Hsplit Hgen Hlast.
       assert (Hw : last_writer (objects d) (all_hosts d) h = Some (host, h)).
       { unfold last_writer. rewrite Hsplit. apply find_last_split.
         - simpl. now rewrite Nat.eqb_refl, Hgen.
         - intros [host' h'] Hin'. simpl.
           destruct (Nat.eqb_spec h' h) as [->|Hne]; [|reflexivity].
           exfalso. exact (Hlast host' Hin'). }
       split; [exact Hw|].
       unfold deref. simpl. rewrite visit_all_objects, Hw. simpl.
       apply dict_get_set_eq. }
  - intros host h Hin Hgen.
    assert (Hw : exists host', last_writer (objects d) (all_hosts d) h = Some (host', h)).
    { destruct (last_writer (objects d) (all_hosts d) h) as [[host' h']|] eqn:E.
      - apply last_writer_Some in E as E'. destruct E' as [-> _]. eauto.
      - apply (last_writer_None _ _ _ host) in E; [congruence | assumption]. }
    destruct Hw as [host' Hw].
    assert (Hname : dict_get "name"
                      (deref (with_genesis (visit_all (all_hosts d) (None, objects d))
                                (load_extracted_data_from_data_source d)) h) =
                    Some (VStr host')).
    { unfold deref. simpl. rewrite visit_all_objects, Hw. simpl.
      apply dict_get_set_eq. }
    apply last_writer_Some in Hw. destruct Hw as (_ & Hin' & _).
    split; [eauto|].
    intros Honly. rewrite Hname. now rewrite (Honly host' Hin').
  - intros h k Hk. unfold deref. simpl. rewrite visit_all_objects.
    destruct (last_writer (objects d) (all_hosts d) h) as [[host' h']|]; simpl;
      [|reflexivity].
    apply dict_get_set_ne. congruence.
Qed.

Lemma visit_all_fixed refs st :
  visit_all refs (visit_all refs st) = visit_all refs st.
Proof.
  destruct st as [g o].
  destruct (visit_all refs (g, o)) as [g1 o1] eqn:E1.
  assert (Hgen : forall h, is_genesis o1 h = is_genesis o h).
  { intros h. pose proof (visit_all_is_genesis refs (g, o) h) as H.
    now rewrite E1 in H. }
  assert (Ho1 : forall h, o1 !! h = snd (visit_all refs (g, o)) !! h)
    by (now rewrite E1).
  destruct (visit_all refs (g1, o1)) as [g2 o2] eqn:E2.
  f_equal.
  - pose proof (visit_all_spec refs g o) as (H1 & _ & _).
    pose proof (visit_all_spec refs g1 o1) as (H2 & _ & _).
    rewrite E1 in H1. rewrite E2 in H2. simpl in H1, H2.
    rewrite (find_last_ext _ (fun r => is_genesis o (snd r))) in H2
      by (intros; apply Hgen).
    destruct (find_last (fun r => is_genesis o (snd r)) refs) as [[host h]|].
    + destruct H1 as [-> _], H2 as [-> _]. reflexivity.
    + inversion H2. reflexivity.
  - apply map_eq. intros h.
    pose proof (visit_all_objects refs g1 o1 h) as H2. rewrite E2 in H2. simpl in H2.
    pose proof (Ho1 h) as Hh. rewrite visit_all_objects in Hh.
    rewrite H2. unfold last_writer in *.
    rewrite (find_last_ext _ (fun r => Nat.eqb (snd r) h && is_genesis o (snd r)))
      by (intros; now rewrite Hgen).
    unfold dict in *. rewrite Hh.
    match goal with
    | |- context [find_last ?p refs] =>
        destruct (find_last p refs) as [[host h']|]; simpl
    end; [|reflexivity].
    f_equal. apply (dict_set_set (V := Value)).
Qed.

(** X14: the lookup can be run again: a second run returns and leaves the state
    exactly as the first run left it. *)
Theorem genesis_lookup_idempotent d :
  (forall host h, In (host, h) (all_hosts d) -> type_of (objects d) h <> None) ->
  exists self',
    _get_genesis_node_details (load_extracted_data_from_data_source d) =
      (Ok tt, self') /\
    _get_genesis_node_details self' = (Ok tt, self').
Proof.
  intros Hty. eexists. split; [apply get_genesis_node_details_visit, Hty|].
  unfold _get_genesis_node_details, mbind, method_bind, get_self.
  rewrite racks_loop_visit.
  - simpl. unfold genesis_state, with_genesis. simpl.
    fold (all_hosts d).
    rewrite <- surjective_pairing, visit_all_fixed. reflexivity.
  - auto.
  - intros host h Hin. simpl. rewrite visit_all_type_of. simpl.
    apply (Hty host). exact Hin.
Qed.

(** X15: on any state whose hosts all have a [type] and none of which is
    [genesis], the lookup returns and changes nothing: [genesis_node] is not
    reset, it keeps the value it had. *)
Theorem genesis_lookup_no_genesis_keeps_state self :
  (forall host h, In (host, h) (all_hosts (data self)) ->
                  type_of (objects (data self)) h <> None) ->
  (forall host h, In (host, h) (all_hosts (data self)) ->
                  is_genesis (objects (data self)) h = false) ->
  _get_genesis_node_details self = (Ok tt, self).
Proof.
  intros Hty Hnone.
  unfold _get_genesis_node_details, mbind, method_bind, get_self.
  rewrite racks_loop_visit by auto.
  pose proof (visit_all_spec (all_hosts (data self)) (genesis_node self)
                (objects (data self))) as (Hlast & _ & _).
  rewrite find_last_None in Hlast by (intros [host h] Hin; apply (Hnone host); auto).
  simpl in Hlast. fold (all_hosts (data self)). unfold genesis_state.
  rewrite Hlast. fold (genesis_state self). now rewrite with_genesis_state.
Qed.

Lemma rack_hosts_loop_outcome rack_hosts hosts self :
  exists r self',
    rack_hosts_loop rack_hosts hosts self = (r, self') /\
    (r = Ok tt \/ r = Raise KeyError) /\
    baremetal (data self') = baremetal (data self) /\
    (forall h, type_of (objects (data self')) h = type_of (objects (data self)) h) /\
    (r = Ok tt ->
     forall host h, In (host, h) (rack_host_refs rack_hosts hosts) ->
                    type_of (objects (data self)) h <> None).
Proof.
  revert self. induction hosts as [|host hosts IH]; intros self.
  - exists (Ok tt), self. simpl. repeat split; auto.
  - destruct (dict_get host rack_hosts) as [h|] eqn:Eh.
    + destruct (type_of (objects (data self)) h) as [ty|] eqn:Ety.
      * rewrite (rack_hosts_loop_cons _ _ _ _ _ _ Eh Ety).
        destruct (IH (with_genesis (visit (genesis_state self) (host, h)) self))
          as (r & self' & Hrun & Hr & Hbm & Hty & Hall).
        assert (Hstep : forall h',
                  type_of (objects (data (with_genesis
                             (visit (genesis_state self) (host, h)) self))) h' =
                  type_of (objects (data self)) h').
        { intros h'.
          change (objects (data (with_genesis (visit (genesis_state self) (host, h)) self)))
            with (snd (visit (genesis_state self) (host, h))).
          apply visit_type_of. }
        exists r, self'. split; [exact Hrun|]. split; [exact Hr|].
        split; [exact Hbm|]. split.
        -- intros h'. now rewrite Hty, Hstep.
        -- intros Hok host' h' Hin. unfold rack_host_refs in Hin.
           cbn [flat_map] in Hin. rewrite Eh in Hin. simpl in Hin.
           destruct Hin as [Heq|Hin].
           ++ inversion Heq; subst. congruence.
           ++ rewrite <- Hstep. apply (Hall Hok host'). exact Hin.
      * exists (Raise KeyError), self. split.
        { cbn [rack_hosts_loop].
          unfold mbind, method_bind, lift, get_self, subscript, deref.
          rewrite Eh. unfold type_of in Ety. now rewrite Ety. }
        split; [auto|]. split; [reflexivity|]. split; [reflexivity|].
        discriminate.
    + exists (Raise KeyError), self. split.
      { cbn [rack_hosts_loop].
        unfold mbind, method_bind, lift, subscript. now rewrite Eh. }
      split; [auto|]. split; [reflexivity|]. split; [reflexivity|].
      discriminate.
Qed.

Lemma racks_loop_outcome racks self :
  exists r self',
    racks_loop racks self = (r, self') /\
    (r = Ok tt \/ r = Raise KeyError) /\
    baremetal (data self') = baremetal (data self) /\
    (r = Ok tt ->
     forall host h, In (host, h) (host_refs (baremetal (data self)) racks) ->
                    type_of (objects (data self)) h <> None).
Proof.
  revert self. induction racks as [|rack racks IH]; intros self.
  - exists (Ok tt), self. simpl. repeat split; auto.
  - cbn [racks_loop]. unfold mbind, method_bind, lift, get_self, subscript.
    unfold host_refs. cbn [flat_map].
    destruct (dict_get rack (baremetal (data self))) as [rack_hosts|] eqn:Er.
    + destruct (rack_hosts_loop_outcome rack_hosts (dict_keys rack_hosts) self)
        as (r1 & s1 & Hrun1 & Hr1 & Hbm1 & Hty1 & Hall1).
      rewrite Hrun1. destruct Hr1 as [-> | ->].
      * destruct (IH s1) as (r & self' & Hrun & Hr & Hbm & Hall).
        exists r, self'. split; [exact Hrun|]. split; [exact Hr|].
        split; [congruence|].
        intros Hok host h Hin. apply in_app_or in Hin. destruct Hin as [Hin|Hin].
        -- apply (Hall1 eq_refl host). exact Hin.
        -- rewrite <- Hty1. apply (Hall Hok host).
           rewrite Hbm1. exact Hin.
      * exists (Raise KeyError), s1. repeat split; auto; discriminate.
    + exists (Raise KeyError), self. repeat split; auto; discriminate.
Qed.

(** X16: a host without a [type] makes the lookup raise [KeyError]; the baremetal
    block is as it was. *)
Theorem genesis_lookup_missing_type self host h :
  In (host, h) (all_hosts (data self)) ->
  type_of (objects (data self)) h = None ->
  exists self',
    _get_genesis_node_details self = (Raise KeyError, self') /\
    baremetal (data self') = baremetal (data self).
Proof.
  intros Hin Hnone.
  unfold _get_genesis_node_details, mbind, method_bind, get_self.
  destruct (racks_loop_outcome (dict_keys (baremetal (data self))) self)
    as (r & self' & Hrun & [-> | ->] & Hbm & Hall).
  - exfalso. apply (Hall eq_refl host h); assumption.
  - exists self'. rewrite Hrun. auto.
Qed.

(** ** The validator's list of hosts *)

Lemma baremetal_list_loop_flat {V : Type} (bm : dict (dict V)) (racks : list string)
    (acc : list (dict V)) :
  (forall rack, In rack racks -> In rack (dict_keys bm)) ->
  baremetal_list_loop bm racks acc =
  Ok (acc ++ flat_map (fun rack =>
                map (fun kv : string * V => [(fst kv, snd kv)])
                    (default [] (dict_get rack bm))) racks)%list.
Proof.
  revert acc. induction racks as [|rack racks IH]; intros acc Hin; simpl.
  - now rewrite app_nil_r.
  - assert (Hr : In rack (dict_keys bm)) by (apply Hin; simpl; auto).
    apply dict_get_In_keys in Hr. destruct Hr as [hosts Hr].
    unfold subscript. rewrite Hr. simpl.
    rewrite IH by (intros; apply Hin; simpl; auto).
    now rewrite <- app_assoc.
Qed.

Lemma flat_map_agree {A B : Type} (f g : A -> list B) (l : list A) :
  (forall x, In x l -> f x = g x) -> flat_map f l = flat_map g l.
Proof.
  induction l as [|x l IH]; simpl; intros H; [reflexivity|].
  rewrite (H x) by auto. f_equal. apply IH. auto.
Qed.

Lemma flat_map_bindings {V B : Type} (f : dict V -> list B) (bm : dict (dict V)) :
  List.NoDup (dict_keys bm) ->
  flat_map (fun rack => f (default [] (dict_get rack bm))) (dict_keys bm) =
  flat_map (fun b => f (snd b)) bm.
Proof.
  induction bm as [|[k v] bm IH]; simpl; intros Hnd; [reflexivity|].
  inversion Hnd as [|? ? Hnin Hnd']; subst.
  rewrite String.eqb_refl. simpl. f_equal.
  rewrite <- IH by assumption.
  apply flat_map_agree. intros rack Hrack.
  destruct (String.eqb rack k) eqn:E; [|reflexivity].
  apply String.eqb_eq in E. subst. tauto.
Qed.

(** X17: the list that the validator checks has one single-key mapping for every
    host of every rack, rack after rack in the order of the document: the
    loop never raises, hosts of the same name in two racks are both there,
    and the names of the racks are gone. *)
Theorem baremetal_list_every_host {V : Type} (bm : dict (dict V)) :
  List.NoDup (dict_keys bm) ->
  exists l,
    baremetal_list_of bm = Ok l /\
    l = flat_map (fun b => map (fun kv : string * V => [(fst kv, snd kv)]) (snd b)) bm /\
    length l = list_sum (map (fun b => length (snd b)) bm) /\
    Forall (fun m => length m = 1%nat) l.
Proof.
  intros Hnd. eexists. split.
  { unfold baremetal_list_of. apply baremetal_list_loop_flat. auto. }
  simpl.
  rewrite (flat_map_bindings
             (fun hosts => map (fun kv : string * V => [(fst kv, snd kv)]) hosts))
    by assumption.
  split; [reflexivity|]. clear Hnd. split.
  - induction bm as [|[k v] bm IH]; simpl; [reflexivity|].
    rewrite length_app, length_map. f_equal. exact IH.
  - induction bm as [|[k v] bm IH]; simpl; [constructor|].
    apply Forall_app. split; [|exact IH].
    apply List.Forall_forall. intros m Hm. apply in_map_iff in Hm.
    destruct Hm as (kv & <- & _). reflexivity.
Qed.

(** ** The name of the output file *)

Lemma string_length_append (s t : string) :
  String.length (s ++ t) = (String.length s + String.length t)%nat.
Proof.
  induction s as [|c s IH]; [reflexivity|].
  change (S (String.length (s ++ t)) = S (String.length s + String.length t)).
  now rewrite IH.
Qed.

Lemma string_append_cancel_l (p s t : string) :
  (p ++ s = p ++ t)%string -> s = t.
Proof.
  induction p as [|c p IH]; [auto|].
  change (String c (p ++ s) = String c (p ++ t) -> s = t).
  intros H. inversion H. auto.
Qed.

Lemma string_append_cancel_r (s t suffix : string) :
  (s ++ suffix = t ++ suffix)%string -> s = t.
Proof.
  revert t. induction s as [|c s IH]; intros [|c' t] H.
  - reflexivity.
  - apply (f_equal String.length) in H.
    rewrite !string_length_append in H. simpl in H. lia.
  - apply (f_equal String.length) in H.
    rewrite !string_length_append in H. simpl in H. lia.
  - change (String c (s ++ suffix) = String c' (t ++ suffix)) in H.
    inversion H. f_equal. auto.
Qed.

(** X18: the path string that [dump_intermediary_file] opens determines the
    region name: for the same directory, or for none, two region names give
    the same string only if they are the same name.  (Two different strings
    may still name one file.) *)
Theorem intermediary_outfile_injective region1 region2 intermediary_dir :
  intermediary_outfile region1 intermediary_dir =
  intermediary_outfile region2 intermediary_dir <-> region1 = region2.
Proof.
  split; [|now intros ->].
  unfold intermediary_outfile. destruct intermediary_dir as [dir|]; intros H.
  - apply string_append_cancel_l in H. apply string_append_cancel_l in H.
    now apply string_append_cancel_r in H.
  - now apply string_append_cancel_r in H.
Qed.

(** ** The further theorems at the example documents *)

Lemma ip_alloc_offset_incomplete_payload_example :
  dict_get "oob" [("default", VInt 50); ("gateway", VInt 1); ("ingress_vip", VInt 5);
                  ("static_ip_end", VInt 200); ("dhcp_ip_end", VInt 220)] = None /\
  _apply_rule_ip_alloc_offset IPv4Text.IPNetwork_of IPv4Text.str_addr
    IPv4Text.str_net short_offsets example_self = (Raise KeyError, example_self).
Proof.
  split; [reflexivity|].
  apply (ip_alloc_offset_incomplete_payload IPv4Text.IPNetwork_of IPv4Text.str_addr
           IPv4Text.str_net short_offsets example_self).
  exists "oob". split; [simpl; auto | reflexivity].
Defined.

Lemma ip_alloc_offset_ingress_errors_example :
  collect_rules example_offsets = Ok example_offsets_read /\
  dict_get "ingress" (vlan_network_data (data no_ingress_self)) = None /\
  _apply_rule_ip_alloc_offset IPv4Text.IPNetwork_of IPv4Text.str_addr
    IPv4Text.str_net example_offsets no_ingress_self = (Raise KeyError, no_ingress_self).
Proof.
  split; [reflexivity|]. split; [reflexivity|].
  apply (ip_alloc_offset_ingress_errors IPv4Text.IPNetwork_of IPv4Text.str_addr
           IPv4Text.str_net example_offsets no_ingress_self example_offsets_read);
    reflexivity.
Defined.

Lemma ip_alloc_offset_raises_after_bgp_example :
  dict_get "subnet" [("vlan", VStr "43")] = None /\
  exists self',
    _apply_rule_ip_alloc_offset IPv4Text.IPNetwork_of IPv4Text.str_addr
      IPv4Text.str_net example_offsets no_subnet_self = (Raise KeyError, self') /\
    dict_get "ingress_vip" (bgp (data self')) = Some (VStr "172.16.0.5") /\
    dict_get "public_service_cidr" (bgp (data self')) = Some (VStr "172.16.0.0/24") /\
    vlan_network_data (data self') = vlan_network_data (data no_subnet_self).
Proof.
  split; [reflexivity|].
  apply (ip_alloc_offset_raises_after_bgp IPv4Text.IPNetwork_of IPv4Text.str_addr
           IPv4Text.str_net example_offsets no_subnet_self example_offsets_read
           [("subnet", VList [VStr "172.16.0.0/24"])]
           (VList [VStr "172.16.0.0/24"]) (VStr "172.16.0.0/24")
           (mkIPNetwork IPv4 2886729728 24) (mkIPAddress IPv4 2886729733)).
  - reflexivity.
  - reflexivity.
  - reflexivity.
  - reflexivity.
  - vm_compute; reflexivity.
  - vm_compute; discriminate.
  - vm_compute; reflexivity.
  - exists "storage", [("vlan", VStr "43")].
    split; [discriminate|]. split; reflexivity.
  - intros net_type entry sv Hne Hentry Hsv. simpl in Hentry.
    destruct (String.eqb net_type "ingress") eqn:E1;
      [apply String.eqb_eq in E1; congruence|].
    destruct (String.eqb net_type "oam") eqn:E2.
    + inversion Hentry; subst. simpl in Hsv. inversion Hsv; subst.
      vm_compute. discriminate.
    + destruct (String.eqb net_type "storage") eqn:E3; [|discriminate].
      inversion Hentry; subst. simpl in Hsv. discriminate.
Defined.

Lemma ip_alloc_offset_second_run_example :
  example_run = (Ok tt, snd example_run) /\
  In "storage" (dict_keys (vlan_network_data (data example_self))) /\
  _apply_rule_ip_alloc_offset IPv4Text.IPNetwork_of IPv4Text.str_addr
    IPv4Text.str_net example_offsets (snd example_run) =
  (Raise KeyError, snd example_run).
Proof.
  split; [exact example_run_Ok|]. split; [simpl; tauto|].
  apply (ip_alloc_offset_second_run IPv4Text.IPNetwork_of IPv4Text.str_addr
           IPv4Text.str_net example_offsets example_self (snd example_run) "storage").
  - exact example_run_Ok.
  - simpl; tauto.
  - discriminate.
Defined.

Lemma ip_alloc_offset_frame_example :
  example_run = (Ok tt, snd example_run) /\
  dict_keys (vlan_network_data (data (snd example_run))) =
    ["oob"; "ingress"; "pxe"; "oam"; "storage"] /\
  dict_get "asnumber" (bgp (data (snd example_run))) = Some (VInt 64671).
Proof.
  split; [exact example_run_Ok|].
  destruct (ip_alloc_offset_frame IPv4Text.IPNetwork_of IPv4Text.str_addr
              IPv4Text.str_net example_offsets example_self (snd example_run)
              example_run_Ok) as (_ & _ & _ & Hkeys & Hbgp).
  split; [exact Hkeys|]. apply (Hbgp "asnumber"); discriminate.
Defined.

Lemma ip_alloc_offset_needs_room_example :
  example_run = (Ok tt, snd example_run) /\
  exists subnet,
    IPv4Text.IPNetwork_of (VStr "192.168.10.0/24") = Some subnet /\
    2 <= Z.of_nat (length (ip_list subnet)).
Proof.
  split; [exact example_run_Ok|].
  destruct (ip_alloc_offset_needs_room IPv4Text.IPNetwork_of IPv4Text.str_addr
              IPv4Text.str_net example_offsets example_self (snd example_run)
              "storage" example_run_Ok)
    as (old & sv & subnet & gw & io & se & H).
  - simpl; tauto.
  - discriminate.
  - cbv zeta in H. destruct H as (Hold & Hsv & Hnet & _ & _ & _ & HN & _).
    vm_compute in Hold. inversion Hold; subst old; clear Hold.
    vm_compute in Hsv. inversion Hsv; subst sv; clear Hsv.
    exists subnet. split; assumption.
Defined.

Lemma ip_alloc_offset_address_values_example :
  example_run = (Ok tt, snd example_run) /\
  dict_get "storage" (vlan_network_data (data (snd example_run))) =
    Some (example_entry "storage") /\
  exists subnet,
    IPv4Text.IPNetwork_of (VStr "192.168.10.0/24") = Some subnet /\
    dict_get "reserved_start" (example_entry "storage") =
      Some (VStr (IPv4Text.str_addr
                    (mkIPAddress (net_version subnet) (first subnet + 1)))).
Proof.
  split; [exact example_run_Ok|]. split; [vm_compute; reflexivity|].
  destruct (ip_alloc_offset_address_values IPv4Text.IPNetwork_of IPv4Text.str_addr
              IPv4Text.str_net example_offsets example_self (snd example_run)
              "storage" (example_entry "storage"))
    as (old & sv & subnet & gw & io & se & H).
  - exact example_run_Ok.
  - discriminate.
  - vm_compute; reflexivity.
  - cbv zeta in H. destruct H as (Hold & Hsv & Hnet & _ & _ & _ & _ & Hrs & _).
    vm_compute in Hold. inversion Hold; subst old; clear Hold.
    vm_compute in Hsv. inversion Hsv; subst sv; clear Hsv.
    exists subnet. split; assumption.
Defined.

Lemma get_network_subnets_in_order_example :
  List.NoDup (dict_keys (vlan_network_data (data example_self))) /\
  exists ns,
    _get_network_subnets IPv4Text.IPNetwork_of example_self = Ok ns /\
    dict_keys ns = ["oob"; "pxe"; "oam"; "storage"].
Proof.
  assert (Hnd : List.NoDup (dict_keys (vlan_network_data (data example_self)))).
  { simpl. repeat constructor; simpl; intuition discriminate. }
  split; [exact Hnd|].
  destruct (_get_network_subnets IPv4Text.IPNetwork_of example_self) as [ns|e] eqn:E;
    [|vm_compute in E; discriminate].
  exists ns. split; [reflexivity|].
  apply (get_network_subnets_in_order IPv4Text.IPNetwork_of example_self ns Hnd E).
Defined.

Lemma apply_design_rule_malformed_example :
  dict_get "rule_hardware_profile" bare_rules =
    Some (VDict [("name", VStr "hardware_profile")]) /\
  apply_design_rule IPv4Text.IPNetwork_of IPv4Text.str_addr IPv4Text.str_net
    bare_rules "rule_hardware_profile" example_self = (Raise KeyError, example_self).
Proof.
  split; [reflexivity|].
  apply (apply_design_rule_malformed IPv4Text.IPNetwork_of IPv4Text.str_addr
           IPv4Text.str_net bare_rules "rule_hardware_profile"
           (VDict [("name", VStr "hardware_profile")]) example_self);
    reflexivity.
Defined.

Lemma apply_design_rule_registered_example :
  dict_get "rule_ip_alloc_offset" good_rules =
    Some (VDict [("name", VStr "ip_alloc_offset"); ("ip_alloc_offset", example_offsets)]) /\
  apply_design_rule IPv4Text.IPNetwork_of IPv4Text.str_addr IPv4Text.str_net
    good_rules "rule_ip_alloc_offset" example_self = example_run.
Proof.
  split; [reflexivity|].
  apply (apply_design_rule_registered IPv4Text.IPNetwork_of IPv4Text.str_addr
           IPv4Text.str_net good_rules "rule_ip_alloc_offset"
           [("name", VStr "ip_alloc_offset"); ("ip_alloc_offset", example_offsets)]
           "ip_alloc_offset" example_offsets example_self);
    reflexivity.
Defined.

Lemma good_rules_run_Ok : good_rules_run = (Ok tt, snd good_rules_run).
Proof.
  assert (H : fst good_rules_run = Ok tt) by (vm_compute; reflexivity).
  destruct good_rules_run. simpl in *. now subst.
Defined.

Lemma apply_design_rules_keeps_hosts_example :
  good_rules_run = (Ok tt, snd good_rules_run) /\
  baremetal (data (snd good_rules_run)) = baremetal example_site /\
  genesis_node (snd good_rules_run) = None.
Proof.
  split; [exact good_rules_run_Ok|].
  destruct (apply_design_rules_keeps_hosts IPv4Text.IPNetwork_of IPv4Text.str_addr
              IPv4Text.str_net good_rules example_self (snd good_rules_run)
              good_rules_run_Ok) as (Hbm & _ & Hg).
  split; [exact Hbm | exact Hg].
Defined.

Lemma generate_intermediary_yaml_returns_example :
  good_rules_run = (Ok tt, snd good_rules_run) /\
  exists self2,
    generate_intermediary_yaml IPv4Text.IPNetwork_of IPv4Text.str_addr
      IPv4Text.str_net good_rules example_self = (Ok (data self2), self2) /\
    genesis_node self2 = Some 3%nat.
Proof.
  split; [exact good_rules_run_Ok|].
  destruct (generate_intermediary_yaml_returns IPv4Text.IPNetwork_of
              IPv4Text.str_addr IPv4Text.str_net good_rules example_site
              (snd good_rules_run) good_rules_run_Ok example_hosts_typed)
    as (self2 & Hrun & _ & _ & _ & Hg).
  exists self2. split; [exact Hrun|]. rewrite Hg. vm_compute. reflexivity.
Defined.

Lemma genesis_lookup_names_every_genesis_host_example :
  (forall host h, In (host, h) (all_hosts example_site) ->
                  type_of (objects example_site) h <> None) /\
  exists self',
    _get_genesis_node_details example_self = (Ok tt, self') /\
    dict_get "name" (deref self' 2%nat) = Some (VStr "h2") /\
    dict_get "host_profile" (deref self' 2%nat) = Some (VStr "cp").
Proof.
  split; [exact example_hosts_typed|].
  destruct (genesis_lookup_names_every_genesis_host example_site example_hosts_typed)
    as (self' & Hrun & Hnames & _ & Hframe & _).
  exists self'. split; [exact Hrun|]. split.
  - apply (Hnames "h2" 2%nat).
    + vm_compute. auto.
    + vm_compute; reflexivity.
    + intros host' Hin. vm_compute in Hin.
      destruct Hin as [H|[H|[H|[]]]]; inversion H; reflexivity.
  - rewrite Hframe by discriminate. vm_compute; reflexivity.
Defined.

Lemma genesis_lookup_idempotent_example :
  (forall host h, In (host, h) (all_hosts example_site) ->
                  type_of (objects example_site) h <> None) /\
  exists self',
    _get_genesis_node_details example_self = (Ok tt, self') /\
    _get_genesis_node_details self' = (Ok tt, self').
Proof.
  split; [exact example_hosts_typed|].
  exact (genesis_lookup_idempotent example_site example_hosts_typed).
Defined.

Lemma genesis_lookup_no_genesis_keeps_state_example :
  genesis_node stale_self = Some 9%nat /\
  all_hosts (data stale_self) = [("h1", 1%nat); ("h2", 2%nat)] /\
  _get_genesis_node_details stale_self = (Ok tt, stale_self).
Proof.
  split; [reflexivity|]. split; [reflexivity|].
  apply (genesis_lookup_no_genesis_keeps_state stale_self).
  - intros host h Hin. vm_compute in Hin.
    destruct Hin as [H|[H|[]]]; inversion H; subst; vm_compute; discriminate.
  - intros host h Hin. vm_compute in Hin.
    destruct Hin as [H|[H|[]]]; inversion H; subst; vm_compute; reflexivity.
Defined.

Lemma genesis_lookup_missing_type_example :
  In ("h2", 2%nat) (all_hosts (data untyped_self)) /\
  type_of (objects (data untyped_self)) 2%nat = None /\
  exists self',
    _get_genesis_node_details untyped_self = (Raise KeyError, self') /\
    baremetal (data self') = baremetal (data untyped_self).
Proof.
  split; [vm_compute; auto|]. split; [vm_compute; reflexivity|].
  apply (genesis_lookup_missing_type untyped_self "h2" 2%nat).
  - vm_compute; auto.
  - vm_compute; reflexivity.
Defined.

Lemma baremetal_list_every_host_example :
  List.NoDup (dict_keys (baremetal example_site)) /\
  baremetal_list_of (baremetal example_site) =
    Ok [[("h1", 1%nat)]; [("h2", 2%nat)]; [("h3", 3%nat)]].
Proof.
  assert (Hnd : List.NoDup (dict_keys (baremetal example_site))).
  { simpl. repeat constructor; simpl; intuition discriminate. }
  split; [exact Hnd|].
  destruct (baremetal_list_every_host (baremetal example_site) Hnd)
    as (l & Hrun & Hl & _).
  rewrite Hrun, Hl. reflexivity.
Defined.

(** Where [h2] and [h3] share one mapping, the name left in it is [h3]. *)
Example genesis_lookup_shared_mapping :
  fst (_get_genesis_node_details shared_self) = Ok tt /\
  genesis_node (snd (_get_genesis_node_details shared_self)) = Some 2%nat /\
  dict_get "name" (deref (snd (_get_genesis_node_details shared_self)) 2%nat) =
    Some (VStr "h3").
Proof. repeat split; vm_compute; reflexivity. Qed.
